(** * app.py: session-based login service (Flask + psycopg2)

    A shallow embedding of [src/app.py].  The request handlers are
    functions on an explicit world state (the Flask [session] of the
    client and the set of open database connections); the psycopg2
    calls are modelled against a credential store given as a list of
    rows, with failures of the driver injected by the environment.
    Console logging ([print]) is modelled where it can raise on a UTF-8
    console, the default of Python 3: the line that shows the submitted
    username.  The other lines show fixed text, stored text or the text of
    an exception, which such a console always prints; they are left out. *)

From Stdlib Require Import ZArith NArith Ascii String.
From stdpp Require Import gmap strings list fin_maps.

Open Scope string_scope.
Set Warnings "-register-all".

(** ** Python values *)

(** The values that travel through the handlers: what [request.get_json()]
    yields, what is stored in [session], what [jsonify] receives and the
    columns of a fetched row. *)
Inductive pyval :=
| VNone
| VBool (b : bool)
| VInt (n : Z)
| VFloat (m e : Z)
| VStr (s : string)
| VList (l : list pyval)
| VDict (kvs : list (string * pyval)).

(** [str(e)] of a raised exception, or a value. *)
Definition exc (A : Type) : Type := (string + A)%type.

(** ** Text *)

(** A Python [str] is held as its UTF-8 encoding; a lone surrogate, which
    has none, as the three bytes ED A0..BF 80..BF that the surrogatepass
    handler gives it and that no well-formed UTF-8 text contains. *)
Fixpoint has_nul (s : string) : bool :=
  match s with
  | EmptyString => false
  | String c rest => Ascii.eqb c "000"%char || has_nul rest
  end.

Fixpoint has_surrogate (s : string) : bool :=
  match s with
  | EmptyString => false
  | String c rest =>
      match rest with
      | EmptyString => false
      | String d _ =>
          (N.eqb (N_of_ascii c) 237
           && N.leb 160 (N_of_ascii d) && N.leb (N_of_ascii d) 191)
          || has_surrogate rest
      end
  end.

(** Text that can be encoded and sent to, and held by, PostgreSQL: no lone
    surrogate and no NUL character. *)
Definition is_text (s : string) : bool :=
  negb (has_surrogate s) && negb (has_nul s).

Definition type_name (v : pyval) : string :=
  match v with
  | VNone => "NoneType"
  | VBool _ => "bool"
  | VInt _ => "int"
  | VFloat _ _ => "float"
  | VStr _ => "str"
  | VList _ => "list"
  | VDict _ => "dict"
  end.

(** A dict is kept as its list of items; a key is looked up at its first
    item. *)
Fixpoint items_get (k : string) (kvs : list (string * pyval)) : option pyval :=
  match kvs with
  | [] => None
  | (k', v) :: rest => if String.eqb k k' then Some v else items_get k rest
  end.

(** [data.get(key)]: [None] for a missing key; an [AttributeError] when
    [data] is not a dict. *)
Definition dict_get (data : pyval) (key : string) : exc pyval :=
  match data with
  | VDict kvs => inr (default VNone (items_get key kvs))
  | _ => inl ("'" ++ type_name data ++ "' object has no attribute 'get'")
  end.

(** ** Responses *)

Inductive response :=
| Json (body : pyval) (status : Z)              (* jsonify(...), status *)
| Redirect (location : string)                  (* redirect(...) *)
| Template (name : string) (context : list (string * pyval)).  (* render_template *)

(** The view functions registered with [@app.route], and [url_for], which
    gives back the path each one is registered at. *)
Inductive endpoint :=
| ep_index | ep_login_page | ep_home | ep_api_login | ep_api_check
| ep_api_logout | ep_test_database.

Definition url_for (e : endpoint) : string :=
  match e with
  | ep_index => "/"
  | ep_login_page => "/login"
  | ep_home => "/home"
  | ep_api_login => "/api/login"
  | ep_api_check => "/api/check"
  | ep_api_logout => "/api/logout"
  | ep_test_database => "/api/test-db"
  end.

(** ** The credential store and the driver *)

(** A row of [users(id, username, password)]; what its two text columns
    hold is text. *)
Record user_row := {
  u_id : Z;
  u_username : string;
  u_password : string;
  u_text : is_text u_username && is_text u_password = true
}.

Inductive db_op :=
  OpConnect | OpCursor | OpExecute | OpFetchone | OpCursorClose | OpClose.

(** A query parameter after adaptation: [None] becomes [NULL], a [str]
    that is text a text literal. *)
Inductive sqlparam := SqlNull | SqlText (s : string).

(** The environment of one request: the rows of the table, the driver
    calls that raise (with their message), what the driver and the server
    make of a parameter that is neither [None] nor a [str], which [app.py]
    does not determine, and the text of the UnicodeEncodeError raised when
    a [str] holding a lone surrogate is encoded (it names the codec, the
    character and its position). *)
Record Store := {
  users : list user_row;
  fault : db_op → option string;
  adapt_other : pyval → exc sqlparam;
  encode_error : string → string
}.

Inductive sql :=
| SelectUser (username password : pyval)
    (* "SELECT id, username FROM users WHERE username = %s AND password = %s" *)
| CountUsers.
    (* the SELECT COUNT over users of test_database *)

(** The driver encodes a [str] and then quotes it: a lone surrogate
    cannot be encoded and a NUL character cannot be quoted. *)
Definition adapt (st : Store) (v : pyval) : exc sqlparam :=
  match v with
  | VNone => inr SqlNull
  | VStr s =>
      if has_surrogate s then inl (encode_error st s)
      else if has_nul s then
        inl "A string literal cannot contain NUL (0x00) characters."
      else inr (SqlText s)
  | _ => adapt_other st v
  end.

(** SQL's three-valued logic: [None] is unknown. *)
Definition sql_eq (col : string) (p : sqlparam) : option bool :=
  match p with
  | SqlNull => None
  | SqlText s => Some (String.eqb col s)
  end.

Definition sql_and (a b : option bool) : option bool :=
  match a, b with
  | Some false, _ => Some false
  | _, Some false => Some false
  | Some true, Some true => Some true
  | _, _ => None
  end.

(** A row is selected when the condition is true (not false, not unknown). *)
Definition sql_where (c : option bool) : bool :=
  match c with Some true => true | _ => false end.

Definition user_matches (u p : sqlparam) (r : user_row) : bool :=
  sql_where (sql_and (sql_eq (u_username r) u) (sql_eq (u_password r) p)).

(** The rows [(id, username)] the login query selects, in table order. *)
Definition select_user (rows : list user_row) (u p : sqlparam) : list (list pyval) :=
  map (λ r, [VInt (u_id r); VStr (u_username r)]) (List.filter (user_matches u p) rows).

(** ** World state and the handler monad *)

Record World := {
  session : gmap string pyval;   (* flask.session of the client *)
  open_conns : gset nat;         (* connections opened and not closed *)
  next_conn : nat                (* next connection handle *)
}.

Definition with_session (s : gmap string pyval) (w : World) : World :=
  {| session := s; open_conns := open_conns w; next_conn := next_conn w |}.

(** State and exceptions; the state reached when an exception is raised
    is kept. *)
Definition M (A : Type) : Type := World → exc A * World.

Definition ret {A} (a : A) : M A := λ w, (inr a, w).
Definition raise {A} (e : string) : M A := λ w, (inl e, w).
Definition lift {A} (r : exc A) : M A := λ w, (r, w).
Definition bind {A B} (m : M A) (k : A → M B) : M B :=
  λ w, match m w with
       | (inl e, w') => (inl e, w')
       | (inr a, w') => k a w'
       end.

Notation "x <~ m ;; k" := (bind m (λ x, k))
  (at level 100, m at next level, right associativity).

Definition check (st : Store) (op : db_op) : M unit :=
  match fault st op with
  | Some e => raise e
  | None => ret tt
  end.

Record cursor_obj := { cur_conn : nat; cur_rows : list (list pyval) }.

(** [psycopg2.connect(database_url)] *)
Definition get_db_connection (st : Store) : M nat :=
  _ <~ check st OpConnect ;;
  λ w, (inr (next_conn w),
        {| session := session w;
           open_conns := {[next_conn w]} ∪ open_conns w;
           next_conn := S (next_conn w) |}).

(** [conn.cursor()] *)
Definition conn_cursor (st : Store) (conn : nat) : M cursor_obj :=
  _ <~ check st OpCursor ;;
  ret {| cur_conn := conn; cur_rows := [] |}.

(** [cursor.execute(query, params)] *)
Definition execute (st : Store) (cur : cursor_obj) (q : sql) : M cursor_obj :=
  match q with
  | SelectUser username password =>
      u <~ lift (adapt st username) ;;
      p <~ lift (adapt st password) ;;
      _ <~ check st OpExecute ;;
      ret {| cur_conn := cur_conn cur; cur_rows := select_user (users st) u p |}
  | CountUsers =>
      _ <~ check st OpExecute ;;
      ret {| cur_conn := cur_conn cur;
             cur_rows := [[VInt (Z.of_nat (length (users st)))]] |}
  end.

(** [cursor.fetchone()]: the first row, or [None].  Each cursor of
    [app.py] is fetched from once. *)
Definition fetchone (st : Store) (cur : cursor_obj) : M (option (list pyval)) :=
  _ <~ check st OpFetchone ;;
  ret (head (cur_rows cur)).

(** [cursor.close()] *)
Definition cursor_close (st : Store) (cur : cursor_obj) : M unit :=
  check st OpCursorClose.

(** [conn.close()] *)
Definition conn_close (st : Store) (conn : nat) : M unit :=
  _ <~ check st OpClose ;;
  λ w, (inr tt,
        {| session := session w;
           open_conns := open_conns w ∖ {[conn]};
           next_conn := next_conn w |}).

(** [t[i]] on a tuple *)
Definition index (t : list pyval) (i : nat) : M pyval :=
  match t !! i with
  | Some v => ret v
  | None => raise "tuple index out of range"
  end.

(** [session[key] = v] *)
Definition session_set (key : string) (v : pyval) : M unit :=
  λ w, (inr tt, with_session (<[key := v]> (session w)) w).

(** ** Handlers *)

Definition is_logged_in (w : World) : bool :=
  bool_decide (is_Some (session w !! "user_id")).

(** [session.get(key, dflt)] *)
Definition session_get (w : World) (key : string) (dflt : pyval) : pyval :=
  default dflt (session w !! key).

Definition index_page (w : World) : response * World :=
  if is_logged_in w then (Redirect (url_for ep_home), w)
  else (Template "login.html" [], w).

Definition login_page (w : World) : response * World :=
  (Template "login.html" [], w).

Definition home (w : World) : response * World :=
  if negb (is_logged_in w) then (Redirect (url_for ep_login_page), w)
  else
    let username := session_get w "username" (VStr "访客") in
    (Template "home.html" [("username", username)], w).

Definition login_ok_body (user_name : pyval) : pyval :=
  VDict [("success", VBool true); ("message", VStr "登录成功！"); ("username", user_name)].

Definition login_rejected_body : pyval :=
  VDict [("success", VBool false); ("message", VStr "用户名或密码错误，请重试")].

Definition login_error_body (e : string) : pyval :=
  VDict [("success", VBool false); ("message", VStr ("服务器错误: " ++ e))].

(** [print(f'>>> 登录尝试: 用户名={username}')]: a [str] is shown as it is,
    and a lone surrogate in it cannot be written; any other value is
    shown through its [repr], which escapes what cannot be written. *)
Definition print_attempt (st : Store) (username : pyval) : exc unit :=
  match username with
  | VStr s =>
      if has_surrogate s
      then inl (encode_error st (">>> 登录尝试: 用户名=" ++ s))
      else inr tt
  | _ => inr tt
  end.

(** The [try] block of [api_login]; [body] is the outcome of
    [request.get_json()]. *)
Definition api_login_try (st : Store) (body : exc pyval) : M response :=
  data <~ lift body ;;
  username <~ lift (dict_get data "username") ;;
  password <~ lift (dict_get data "password") ;;
  _ <~ lift (print_attempt st username) ;;
  conn <~ get_db_connection st ;;
  cursor <~ conn_cursor st conn ;;
  cursor <~ execute st cursor (SelectUser username password) ;;
  user <~ fetchone st cursor ;;
  _ <~ cursor_close st cursor ;;
  _ <~ conn_close st conn ;;
  match user with
  | Some ((_ :: _) as user) =>
      user_id <~ index user 0 ;;
      user_name <~ index user 1 ;;
      _ <~ session_set "user_id" user_id ;;
      _ <~ session_set "username" user_name ;;
      ret (Json (login_ok_body user_name) 200)
  | _ =>
      ret (Json login_rejected_body 401)
  end.

(** [api_login]: the [try] block under [except Exception as e]. *)
Definition api_login (st : Store) (body : exc pyval) (w : World) : response * World :=
  match api_login_try st body w with
  | (inr r, w') => (r, w')
  | (inl e, w') => (Json (login_error_body e) 500, w')
  end.

Definition api_check (w : World) : response * World :=
  if is_logged_in w then
    (Json (VDict [("logged_in", VBool true);
                  ("username", session_get w "username" VNone)]) 200, w)
  else
    (Json (VDict [("logged_in", VBool false)]) 200, w).

Definition api_logout (w : World) : response * World :=
  (Json (VDict [("success", VBool true); ("message", VStr "已成功登出")]) 200,
   with_session ∅ w).

Definition test_database_try (st : Store) : M response :=
  conn <~ get_db_connection st ;;
  cursor <~ conn_cursor st conn ;;
  cursor <~ execute st cursor CountUsers ;;
  row <~ fetchone st cursor ;;
  count <~ match row with
           | Some t => index t 0
           | None => raise "'NoneType' object is not subscriptable"
           end ;;
  _ <~ cursor_close st cursor ;;
  _ <~ conn_close st conn ;;
  ret (Json (VDict [("success", VBool true);
                    ("message", VStr "数据库连接正常");
                    ("user_count", count)]) 200).

Definition test_database (st : Store) (w : World) : response * World :=
  match test_database_try st w with
  | (inr r, w') => (r, w')
  | (inl e, w') =>
      (Json (VDict [("success", VBool false);
                    ("message", VStr ("数据库连接失败: " ++ e))]) 500, w')
  end.

Definition page_not_found (w : World) : response * World :=
  (Json (VDict [("success", VBool false); ("message", VStr "页面不存在")]) 404, w).

(** ** The service *)

(** The routes of the application. *)
Inductive request :=
| GetIndex                          (* GET / *)
| GetLogin                          (* GET /login *)
| GetHome                           (* GET /home *)
| PostApiLogin (body : exc pyval)   (* POST /api/login *)
| GetApiCheck                       (* GET /api/check *)
| PostApiLogout                     (* POST /api/logout *)
| GetApiTestDb                      (* GET /api/test-db *)
| Unmatched.                        (* any other path *)

Definition handle (st : Store) (req : request) (w : World) : response * World :=
  match req with
  | GetIndex => index_page w
  | GetLogin => login_page w
  | GetHome => home w
  | PostApiLogin body => api_login st body w
  | GetApiCheck => api_check w
  | PostApiLogout => api_logout w
  | GetApiTestDb => test_database st w
  | Unmatched => page_not_found w
  end.

(** A new client has an empty session; no connection is open. *)
Definition initial : World := {| session := ∅; open_conns := ∅; next_conn := 0 |}.

(** The worlds a client can be in: after any sequence of requests, each
    against any state of the store, and after its session cookie is lost
    or has expired. *)
Inductive reachable : World → Prop :=
| reach_initial : reachable initial
| reach_request st req w : reachable w → reachable (handle st req w).2
| reach_expire w : reachable w → reachable (with_session ∅ w).

(** * Properties *)

(** ** Vocabulary of the statements *)

(** Every driver call goes through: the store is reachable and answers. *)
Definition available (st : Store) : Prop := ∀ op, fault st op = None.

(** The driver accepts the value as a query parameter. *)
Definition accepted (st : Store) (v : pyval) : Prop := ∃ q, adapt st v = inr q.

(** The record has exactly these credentials. *)
Definition has_credentials (u p : string) (r : user_row) : bool :=
  String.eqb (u_username r) u && String.eqb (u_password r) p.

(** The JSON object of a login form. *)
Definition credentials (u p : string) : list (string * pyval) :=
  [("username", VStr u); ("password", VStr p)].

(** A POST to /api/login whose body is the JSON object [kvs]. *)
Definition post_login (st : Store) (kvs : list (string * pyval)) (w : World)
  : response * World :=
  api_login st (inr (VDict kvs)) w.

(** The three outcomes of a login attempt, read off the response and the
    session it leaves. *)
Definition Authenticated (o : response * World) (user_id : Z) (username : string) : Prop :=
  o.1 = Json (login_ok_body (VStr username)) 200 ∧
  session o.2 !! "user_id" = Some (VInt user_id) ∧
  session o.2 !! "username" = Some (VStr username).

Definition Rejected (o : response * World) : Prop :=
  o.1 = Json login_rejected_body 401.

Definition ServiceError (o : response * World) (message : string) : Prop :=
  o.1 = Json (login_error_body message) 500.

(** The claim as the specification words it: authenticated exactly when
    one record, and no more, holds the credentials. *)
Definition authenticated_iff_exactly_one (st : Store) (u p : string) (w : World) : Prop :=
  (∃ id name, Authenticated (post_login st (credentials u p) w) id name) ↔
  length (List.filter (has_credentials u p) (users st)) = 1.

(** The exceptions a login request can meet, in the order in which the
    handler would meet them: the body is not JSON; [data] has no [get];
    the username cannot be printed; then the store-connectivity and query
    errors: connect, cursor, the adaptation of the username and of the
    password, execute, fetchone, cursor.close, conn.close.  [login_error]
    is the text of the first one that occurs. *)
Definition error_of {A} (r : exc A) : option string :=
  match r with
  | inl e => Some e
  | inr _ => None
  end.

Definition login_error (st : Store) (body : exc pyval) : option string :=
  match body with
  | inl e => Some e
  | inr data =>
      match dict_get data "username", dict_get data "password" with
      | inl e, _ => Some e
      | _, inl e => Some e
      | inr username, inr password =>
          head (omap id [error_of (print_attempt st username);
                         fault st OpConnect;
                         fault st OpCursor;
                         error_of (adapt st username);
                         error_of (adapt st password);
                         fault st OpExecute;
                         fault st OpFetchone;
                         fault st OpCursorClose;
                         fault st OpClose])
      end
  end.

(** The session invariant: [user_id] and [username] are present together. *)
Definition session_inv (s : gmap string pyval) : Prop :=
  is_Some (s !! "user_id") ↔ is_Some (s !! "username").

(** In a reachable world the session is empty of both keys, or holds an
    integer user_id and a string username. *)
Definition session_typed (s : gmap string pyval) : Prop :=
  (s !! "user_id" = None ∧ s !! "username" = None) ∨
  (∃ id name, s !! "user_id" = Some (VInt id) ∧ s !! "username" = Some (VStr name)).

(** The handles of open connections are below the next handle. *)
Definition fresh (w : World) : Prop :=
  ∀ c, c ∈ open_conns w → (c < next_conn w)%nat.

(** ** Sample data *)

Definition alice : user_row :=
  {| u_id := 1; u_username := "alice"; u_password := "secret"; u_text := eq_refl |}.

Definition alice_again : user_row :=
  {| u_id := 2; u_username := "alice"; u_password := "secret"; u_text := eq_refl |}.

(** A username with a NUL character, as the JSON string "b" followed by
    the escape u0000 gives. *)
Definition nul_name : string := String "b"%char (String "000"%char EmptyString).

Definition no_fault : db_op → option string := λ _, None.

(** The samples hold no surrogate; this text stands in for the error. *)
Definition surrogates_not_allowed (s : string) : string :=
  "'utf-8' codec can't encode the surrogate in: " ++ s.

(** A driver and server that take only [None] and text as parameters; for
    a dict the text is psycopg2's own. *)
Definition cannot_adapt (v : pyval) : exc sqlparam :=
  inl ("can't adapt type '" ++ type_name v ++ "'").

Definition demo_store : Store :=
  {| users := [alice]; fault := no_fault; adapt_other := cannot_adapt;
     encode_error := surrogates_not_allowed |}.

Definition duplicate_store : Store :=
  {| users := [alice; alice_again]; fault := no_fault; adapt_other := cannot_adapt;
     encode_error := surrogates_not_allowed |}.

Definition unreachable_store : Store :=
  {| users := [alice];
     fault := λ op, match op with OpConnect => Some "connection refused" | _ => None end;
     adapt_other := cannot_adapt;
     encode_error := surrogates_not_allowed |}.

Definition failing_query_store : Store :=
  {| users := [alice];
     fault := λ op, match op with
                    | OpExecute => Some "relation users does not exist"
                    | _ => None
                    end;
     adapt_other := cannot_adapt;
     encode_error := surrogates_not_allowed |}.

(** ** Worlds around a database call *)

(** The world once [get_db_connection] has returned a new connection, and
    the world once that connection has been closed again. *)
Definition connected (w : World) : World :=
  {| session := session w;
     open_conns := {[next_conn w]} ∪ open_conns w;
     next_conn := S (next_conn w) |}.

Definition released (w : World) : World :=
  {| session := session w;
     open_conns := ({[next_conn w]} ∪ open_conns w) ∖ {[next_conn w]};
     next_conn := S (next_conn w) |}.

(** The body of the answer of /api/test-db when the count succeeds, and
    when an exception with text [e] was raised. *)
Definition test_db_ok_body (count : pyval) : pyval :=
  VDict [("success", VBool true);
         ("message", VStr "数据库连接正常");
         ("user_count", count)].

Definition test_db_error_body (e : string) : pyval :=
  VDict [("success", VBool false); ("message", VStr ("数据库连接失败: " ++ e))].

(** The driver calls of a handler in the order it makes them, and the
    text of the first of them that raises. *)
Definition call_order : list db_op :=
  [OpConnect; OpCursor; OpExecute; OpFetchone; OpCursorClose; OpClose].

Definition first_fault (st : Store) : option string :=
  head (omap (fault st) call_order).

(** The requests whose handlers call [get_db_connection]. *)
Definition uses_database (req : request) : bool :=
  match req with
  | PostApiLogin _ | GetApiTestDb => true
  | _ => false
  end.

(** A store that rejects every cursor, and a login form carrying fields
    the handler does not read. *)
Definition no_cursor_store : Store :=
  {| users := [alice];
     fault := λ op, match op with OpCursor => Some "cursor failed" | _ => None end;
     adapt_other := cannot_adapt;
     encode_error := surrogates_not_allowed |}.

Definition verbose_form : list (string * pyval) :=
  [("remember", VBool true); ("password", VStr "secret");
   ("username", VStr "alice"); ("captcha", VNone)].

(** ** The monad and the driver *)

Lemma bind_eq {A B} (m : M A) (k : A → M B) (w : World) :
  bind m k w = match m w with
               | (inl e, w') => (inl e, w')
               | (inr a, w') => k a w'
               end.
Proof. reflexivity. Qed.

Lemma check_available st op w : available st → check st op w = (inr tt, w).
Proof. intros Hav. unfold check. by rewrite Hav. Qed.

Lemma accepted_none st : accepted st VNone.
Proof. by exists SqlNull. Qed.

Lemma is_text_spec s :
  is_text s = true ↔ has_surrogate s = false ∧ has_nul s = false.
Proof.
  unfold is_text. rewrite andb_true_iff, !negb_true_iff. done.
Qed.

Lemma adapt_text st s : is_text s = true → adapt st (VStr s) = inr (SqlText s).
Proof. intros [Hs Hn]%is_text_spec. simpl. by rewrite Hs, Hn. Qed.

Lemma accepted_str st s : is_text s = true → accepted st (VStr s).
Proof. intros Hs. exists (SqlText s). by apply adapt_text. Qed.

(** A string the driver rejects is not text, and conversely. *)
Lemma accepted_str_iff st s : accepted st (VStr s) ↔ is_text s = true.
Proof.
  split; [|apply accepted_str].
  intros [q Hq]. apply is_text_spec. simpl in Hq.
  destruct (has_surrogate s); [discriminate|].
  by destruct (has_nul s).
Qed.

(** What the driver accepts as a parameter, the console prints. *)
Lemma adapt_prints st v q : adapt st v = inr q → print_attempt st v = inr tt.
Proof.
  destruct v; try done. simpl.
  by destruct (has_surrogate s).
Qed.

Lemma row_text r : is_text (u_username r) = true ∧ is_text (u_password r) = true.
Proof. apply andb_true_iff. apply u_text. Qed.

(** ** The login query *)

Lemma user_matches_text u p r :
  user_matches (SqlText u) (SqlText p) r = has_credentials u p r.
Proof.
  unfold user_matches, has_credentials. simpl.
  by destruct (String.eqb (u_username r) u), (String.eqb (u_password r) p).
Qed.

Lemma has_credentials_spec u p r :
  has_credentials u p r = true ↔ u_username r = u ∧ u_password r = p.
Proof.
  unfold has_credentials. rewrite andb_true_iff, !String.eqb_eq. tauto.
Qed.

Lemma user_matches_null_username p r : user_matches SqlNull p r = false.
Proof.
  unfold user_matches. simpl.
  by destruct (sql_eq (u_password r) p) as [[]|].
Qed.

Lemma user_matches_null_password u r : user_matches u SqlNull r = false.
Proof.
  unfold user_matches. simpl.
  by destruct (sql_eq (u_username r) u) as [[]|].
Qed.

Lemma filter_text u p rows :
  List.filter (user_matches (SqlText u) (SqlText p)) rows
  = List.filter (has_credentials u p) rows.
Proof.
  induction rows as [|r rows IH]; simpl; [done|].
  by rewrite user_matches_text, IH.
Qed.

Lemma filter_all_false {A} (f : A → bool) (l : list A) :
  (∀ x, f x = false) → List.filter f l = [].
Proof.
  intros Hf. induction l as [|x l IH]; simpl; [done|]. by rewrite Hf.
Qed.

Lemma head_filter_find {A} (f : A → bool) (l : list A) :
  head (List.filter f l) = List.find f l.
Proof.
  induction l as [|x l IH]; simpl; [done|]. by destruct (f x).
Qed.

Lemma find_none_iff {A} (f : A → bool) (l : list A) :
  List.find f l = None ↔ ∀ x, x ∈ l → f x = false.
Proof.
  split.
  - intros H x Hx. apply list_elem_of_In in Hx.
    by apply (find_none f l H).
  - intros H. induction l as [|x l IH]; simpl; [done|].
    rewrite (H x) by left. apply IH. intros y Hy. apply H. by right.
Qed.

Lemma find_some_elem {A} (f : A → bool) (l : list A) x :
  List.find f l = Some x → x ∈ l ∧ f x = true.
Proof.
  intros H. apply find_some in H as [Hin Hf].
  split; [by apply list_elem_of_In | done].
Qed.

(** ** Running [api_login] against an available store *)

(** What the handler does once both parameters are accepted and no driver
    call raises: the first selected row decides. *)
Lemma api_login_available st kvs u p w :
  available st →
  adapt st (default VNone (items_get "username" kvs)) = inr u →
  adapt st (default VNone (items_get "password" kvs)) = inr p →
  api_login st (inr (VDict kvs)) w =
    match List.find (user_matches u p) (users st) with
    | Some r =>
        (Json (login_ok_body (VStr (u_username r))) 200,
         {| session := <["username" := VStr (u_username r)]>
                         (<["user_id" := VInt (u_id r)]> (session w));
            open_conns := ({[next_conn w]} ∪ open_conns w) ∖ {[next_conn w]};
            next_conn := S (next_conn w) |})
    | None =>
        (Json login_rejected_body 401,
         {| session := session w;
            open_conns := ({[next_conn w]} ∪ open_conns w) ∖ {[next_conn w]};
            next_conn := S (next_conn w) |})
    end.
Proof.
  intros Hav Hu Hp.
  rewrite <- head_filter_find.
  unfold api_login, api_login_try.
  rewrite bind_eq. unfold lift at 1. cbv beta iota.
  rewrite bind_eq. unfold lift at 1, dict_get at 1. cbv beta iota.
  rewrite bind_eq. unfold lift at 1, dict_get at 1. cbv beta iota.
  rewrite bind_eq, (adapt_prints st _ u Hu). unfold lift at 1. cbv beta iota.
  rewrite bind_eq. unfold get_db_connection at 1.
  rewrite bind_eq, check_available by done. cbv beta iota.
  rewrite bind_eq. unfold conn_cursor at 1.
  rewrite bind_eq, check_available by done. unfold ret at 1. cbv beta iota.
  rewrite bind_eq. unfold execute at 1.
  rewrite bind_eq, Hu. unfold lift at 1. cbv beta iota.
  rewrite bind_eq, Hp. unfold lift at 1. cbv beta iota.
  rewrite bind_eq, check_available by done. unfold ret at 1. cbv beta iota.
  rewrite bind_eq. unfold fetchone at 1.
  rewrite bind_eq, check_available by done. unfold ret at 1. cbv beta iota.
  rewrite bind_eq. unfold cursor_close at 1.
  rewrite check_available by done. cbv beta iota.
  rewrite bind_eq. unfold conn_close at 1.
  rewrite bind_eq, check_available by done. cbv beta iota.
  unfold select_user. simpl cur_rows.
  destruct (List.filter (user_matches u p) (users st)) as [|r rest]; [done|].
  reflexivity.
Qed.

Lemma find_text u p rows :
  List.find (user_matches (SqlText u) (SqlText p)) rows
  = List.find (has_credentials u p) rows.
Proof. by rewrite <- !head_filter_find, filter_text. Qed.

Lemma find_null_username p rows : List.find (user_matches SqlNull p) rows = None.
Proof.
  rewrite <- head_filter_find, filter_all_false; [done|].
  intros r. apply user_matches_null_username.
Qed.

Lemma find_null_password u rows : List.find (user_matches u SqlNull) rows = None.
Proof.
  rewrite <- head_filter_find, filter_all_false; [done|].
  intros r. apply user_matches_null_password.
Qed.

(** With both credentials strings, the first record holding them decides. *)
Lemma post_login_strings st kvs u p w :
  available st →
  items_get "username" kvs = Some (VStr u) →
  items_get "password" kvs = Some (VStr p) →
  is_text u = true → is_text p = true →
  post_login st kvs w =
    match List.find (has_credentials u p) (users st) with
    | Some r =>
        (Json (login_ok_body (VStr (u_username r))) 200,
         {| session := <["username" := VStr (u_username r)]>
                         (<["user_id" := VInt (u_id r)]> (session w));
            open_conns := ({[next_conn w]} ∪ open_conns w) ∖ {[next_conn w]};
            next_conn := S (next_conn w) |})
    | None =>
        (Json login_rejected_body 401,
         {| session := session w;
            open_conns := ({[next_conn w]} ∪ open_conns w) ∖ {[next_conn w]};
            next_conn := S (next_conn w) |})
    end.
Proof.
  intros Hav Hu Hp Htu Htp. unfold post_login.
  rewrite (api_login_available st kvs (SqlText u) (SqlText p)); try done.
  - by rewrite find_text.
  - rewrite Hu. by apply adapt_text.
  - rewrite Hp. by apply adapt_text.
Qed.

Lemma is_logged_in_spec w :
  is_logged_in w = true ↔ is_Some (session w !! "user_id").
Proof. unfold is_logged_in. apply bool_decide_eq_true. Qed.

Lemma is_logged_in_false w :
  is_logged_in w = false ↔ session w !! "user_id" = None.
Proof.
  unfold is_logged_in. rewrite bool_decide_eq_false.
  rewrite <- eq_None_not_Some. done.
Qed.

(** ** The first exception decides *)

(** An exception, from whichever call, is answered 500 with its text and
    leaves the session alone. *)
Lemma api_login_error st body w e :
  login_error st body = Some e →
  (api_login st body w).1 = Json (login_error_body e) 500 ∧
  session (api_login st body w).2 = session w.
Proof.
  unfold login_error, api_login, api_login_try, get_db_connection, conn_cursor,
    execute, fetchone, cursor_close, conn_close, check, bind, lift, raise, ret.
  destruct body as [e0|data]; [by intros [= ->]|].
  destruct (dict_get data "username") as [e0|username]; [by intros [= ->]|].
  destruct (dict_get data "password") as [e0|password]; [by intros [= ->]|].
  simpl omap.
  destruct (print_attempt st username) as [e0|[]]; [by intros [= ->]|].
  destruct (fault st OpConnect); [by intros [= ->]|].
  destruct (fault st OpCursor); [by intros [= ->]|].
  destruct (adapt st username) as [e0|qu]; [by intros [= ->]|].
  destruct (adapt st password) as [e0|qp]; [by intros [= ->]|].
  destruct (fault st OpExecute); [by intros [= ->]|].
  destruct (fault st OpFetchone); [by intros [= ->]|].
  destruct (fault st OpCursorClose); [by intros [= ->]|].
  destruct (fault st OpClose); [by intros [= ->]|].
  discriminate.
Qed.

(** Without an exception the answer is the 200 or the 401. *)
Lemma api_login_no_error st body w :
  login_error st body = None →
  (api_login st body w).1 = Json login_rejected_body 401 ∨
  ∃ name, (api_login st body w).1 = Json (login_ok_body (VStr name)) 200.
Proof.
  unfold login_error, api_login, api_login_try, get_db_connection, conn_cursor,
    execute, fetchone, cursor_close, conn_close, check, bind, lift, raise, ret.
  destruct body as [e0|data]; [discriminate|].
  destruct (dict_get data "username") as [e0|username]; [discriminate|].
  destruct (dict_get data "password") as [e0|password]; [discriminate|].
  simpl omap.
  destruct (print_attempt st username) as [e0|[]]; [discriminate|].
  destruct (fault st OpConnect); [discriminate|].
  destruct (fault st OpCursor); [discriminate|].
  destruct (adapt st username) as [e0|qu]; [discriminate|].
  destruct (adapt st password) as [e0|qp]; [discriminate|].
  destruct (fault st OpExecute); [discriminate|].
  destruct (fault st OpFetchone); [discriminate|].
  destruct (fault st OpCursorClose); [discriminate|].
  destruct (fault st OpClose); [discriminate|].
  intros _. cbv beta iota. unfold select_user. cbn [cur_rows].
  destruct (List.filter (user_matches qu qp) (users st)) as [|r rest].
  - by left.
  - right. by eexists.
Qed.

(** Credentials that are strings but not text raise in [cursor.execute],
    or before: the answer is a 500. *)
Lemma post_login_not_text st kvs u p w :
  items_get "username" kvs = Some (VStr u) →
  items_get "password" kvs = Some (VStr p) →
  is_text u && is_text p = false →
  ∃ e, (post_login st kvs w).1 = Json (login_error_body e) 500.
Proof.
  intros Hu Hp Ht.
  assert (He : is_Some (login_error st (inr (VDict kvs)))).
  { unfold login_error, dict_get. rewrite Hu, Hp. simpl default.
    destruct (print_attempt st (VStr u)) as [e0|[]]; [simpl; by eexists|].
    destruct (fault st OpConnect); [simpl; by eexists|].
    destruct (fault st OpCursor); [simpl; by eexists|].
    destruct (adapt st (VStr u)) as [e0|qu] eqn:Hau; [simpl; by eexists|].
    destruct (adapt st (VStr p)) as [e0|qp] eqn:Hap; [simpl; by eexists|].
    exfalso.
    assert (is_text u = true) by (apply (accepted_str_iff st); by eexists).
    assert (is_text p = true) by (apply (accepted_str_iff st); by eexists).
    destruct (is_text u), (is_text p); done. }
  destruct He as [e He]. exists e.
  by apply (api_login_error st (inr (VDict kvs)) w e).
Qed.

(** ** Login: success, rejection, missing credentials *)

(** C1: a POST to /api/login whose username and password are those of a
    stored record is answered 200 with success true and the stored
    username; user_id and username of the record the query finds are
    written to the session, after which is_logged_in holds and /api/check
    reports logged_in true with that username.  The record found is the
    first one holding the credentials, hence the given one when no other
    record shares them.  Stated for a store whose driver calls go through. *)
Theorem login_success st kvs u p r w :
  available st →
  items_get "username" kvs = Some (VStr u) →
  items_get "password" kvs = Some (VStr p) →
  r ∈ users st → u_username r = u → u_password r = p →
  ∃ m, List.find (has_credentials u p) (users st) = Some m ∧
       m ∈ users st ∧ u_username m = u ∧ u_password m = p ∧
       ((∀ r', r' ∈ users st → u_username r' = u → u_password r' = p → r' = r)
        → m = r) ∧
       (post_login st kvs w).1
       = Json (VDict [("success", VBool true);
                      ("message", VStr "登录成功！");
                      ("username", VStr (u_username m))]) 200 ∧
       session (post_login st kvs w).2
       = <["username" := VStr (u_username m)]>
           (<["user_id" := VInt (u_id m)]> (session w)) ∧
       is_logged_in (post_login st kvs w).2 = true ∧
       (api_check (post_login st kvs w).2).1
       = Json (VDict [("logged_in", VBool true); ("username", VStr u)]) 200.
Proof.
  intros Hav Hu Hp Hin Hru Hrp.
  assert (Htu : is_text u = true) by (rewrite <- Hru; apply row_text).
  assert (Htp : is_text p = true) by (rewrite <- Hrp; apply row_text).
  destruct (List.find (has_credentials u p) (users st)) as [m|] eqn:Hfind.
  - exists m. apply find_some_elem in Hfind as Hm. destruct Hm as [Hmin Hmc].
    apply has_credentials_spec in Hmc as [Hmu Hmp].
    rewrite (post_login_strings st kvs u p w Hav Hu Hp Htu Htp), Hfind. simpl.
    repeat split; try done.
    + intros Huniq. by apply Huniq.
    + apply is_logged_in_spec. simpl.
      rewrite lookup_insert_ne by done. rewrite lookup_insert_eq. by eexists.
    + unfold api_check.
      assert (Hlog : is_logged_in
                {| session := <["username" := VStr (u_username m)]>
                                (<["user_id" := VInt (u_id m)]> (session w));
                   open_conns := ({[next_conn w]} ∪ open_conns w) ∖ {[next_conn w]};
                   next_conn := S (next_conn w) |} = true).
      { apply is_logged_in_spec. simpl.
        rewrite lookup_insert_ne by done. rewrite lookup_insert_eq. by eexists. }
      rewrite Hlog. unfold session_get. simpl.
      rewrite lookup_insert_eq. simpl. by rewrite Hmu.
  - exfalso. rewrite find_none_iff in Hfind.
    specialize (Hfind r Hin).
    assert (has_credentials u p r = true) by by apply has_credentials_spec.
    congruence.
Qed.

Lemma login_success_witness :
  ∃ m, List.find (has_credentials "alice" "secret") (users demo_store) = Some m ∧
       m ∈ users demo_store ∧ u_username m = "alice" ∧ u_password m = "secret" ∧
       ((∀ r', r' ∈ users demo_store → u_username r' = "alice" →
               u_password r' = "secret" → r' = alice) → m = alice) ∧
       (post_login demo_store (credentials "alice" "secret") initial).1
       = Json (VDict [("success", VBool true);
                      ("message", VStr "登录成功！");
                      ("username", VStr (u_username m))]) 200 ∧
       session (post_login demo_store (credentials "alice" "secret") initial).2
       = <["username" := VStr (u_username m)]>
           (<["user_id" := VInt (u_id m)]> (session initial)) ∧
       is_logged_in (post_login demo_store (credentials "alice" "secret") initial).2 = true ∧
       (api_check (post_login demo_store (credentials "alice" "secret") initial).2).1
       = Json (VDict [("logged_in", VBool true); ("username", VStr "alice")]) 200.
Proof.
  apply (login_success demo_store (credentials "alice" "secret")
           "alice" "secret" alice initial).
  - intros op. reflexivity.
  - reflexivity.
  - reflexivity.
  - apply list_elem_of_In. simpl. left. reflexivity.
  - reflexivity.
  - reflexivity.
Defined.

(** C2, as stated, fails: a username holding a NUL character (the JSON
    escape u0000) is held by no stored record, yet the request is not
    answered 401: the driver cannot quote the string, [cursor.execute]
    raises inside the try block, and the answer is the 500 of the except
    clause. *)
Lemma login_nul_username_not_rejected :
  available demo_store ∧
  (∀ r, r ∈ users demo_store →
        ¬ (u_username r = nul_name ∧ u_password r = "secret")) ∧
  (post_login demo_store (credentials nul_name "secret") initial).1
  = Json (VDict [("success", VBool false);
                 ("message",
                  VStr "服务器错误: A string literal cannot contain NUL (0x00) characters.")])
         500 ∧
  (post_login demo_store (credentials nul_name "secret") initial).1
  ≠ Json (VDict [("success", VBool false);
                 ("message", VStr "用户名或密码错误，请重试")]) 401.
Proof.
  split; [intros op; reflexivity|]. split; [|split].
  - intros r Hr [Hu _]. apply list_elem_of_In in Hr. simpl in Hr.
    destruct Hr as [<-|[]]. discriminate Hu.
  - reflexivity.
  - discriminate.
Qed.

(** C2, amended: a POST to /api/login whose username and password are
    text (strings without NUL character and without lone surrogate) held
    by no stored record is answered 401 with success false and the
    message "用户名或密码错误，请重试", provided no driver call raises; the
    session is left as it was, so a client that was anonymous stays
    anonymous. *)
Theorem login_rejected st kvs u p w :
  available st →
  items_get "username" kvs = Some (VStr u) →
  items_get "password" kvs = Some (VStr p) →
  is_text u = true → is_text p = true →
  (∀ r, r ∈ users st → ¬ (u_username r = u ∧ u_password r = p)) →
  (post_login st kvs w).1
  = Json (VDict [("success", VBool false);
                 ("message", VStr "用户名或密码错误，请重试")]) 401 ∧
  session (post_login st kvs w).2 = session w ∧
  (is_logged_in w = false → is_logged_in (post_login st kvs w).2 = false).
Proof.
  intros Hav Hu Hp Htu Htp Hno.
  assert (Hfind : List.find (has_credentials u p) (users st) = None).
  { apply find_none_iff. intros r Hr.
    destruct (has_credentials u p r) eqn:Hc; [|done].
    apply has_credentials_spec in Hc. by destruct (Hno r Hr). }
  rewrite (post_login_strings st kvs u p w Hav Hu Hp Htu Htp), Hfind. simpl.
  split; [done|]. split; [done|]. intros Hw. exact Hw.
Qed.

Lemma login_rejected_witness :
  (post_login demo_store (credentials "alice" "wrong") initial).1
  = Json (VDict [("success", VBool false);
                 ("message", VStr "用户名或密码错误，请重试")]) 401 ∧
  session (post_login demo_store (credentials "alice" "wrong") initial).2
  = session initial ∧
  (is_logged_in initial = false →
   is_logged_in (post_login demo_store (credentials "alice" "wrong") initial).2 = false).
Proof.
  apply (login_rejected demo_store (credentials "alice" "wrong") "alice" "wrong" initial).
  - intros op. reflexivity.
  - reflexivity.
  - reflexivity.
  - reflexivity.
  - reflexivity.
  - intros r Hr [_ Hp]. apply list_elem_of_In in Hr. simpl in Hr.
    destruct Hr as [<-|[]]. discriminate Hp.
Defined.

(** C10, as stated, fails: a JSON object that lacks the password key is
    not answered 401 when the username it carries cannot be sent as a
    parameter, a string with a NUL character or a JSON object for
    instance: [cursor.execute] raises and the answer is a 500. *)
Lemma login_missing_password_not_rejected :
  available demo_store ∧
  items_get "password" [("username", VStr nul_name)] = None ∧
  (post_login demo_store [("username", VStr nul_name)] initial).1
  = Json (VDict [("success", VBool false);
                 ("message",
                  VStr "服务器错误: A string literal cannot contain NUL (0x00) characters.")])
         500 ∧
  items_get "password" [("username", VDict [])] = None ∧
  (post_login demo_store [("username", VDict [])] initial).1
  = Json (VDict [("success", VBool false);
                 ("message", VStr "服务器错误: can't adapt type 'dict'")]) 500.
Proof.
  split; [intros op; reflexivity|].
  split; [reflexivity|]. split; [reflexivity|].
  split; reflexivity.
Qed.

(** C10, amended: when the JSON object of a POST to /api/login lacks the
    username or the password key, [data.get] yields None for it, None is
    sent as NULL, which no stored record equals, and the request is
    answered 401 (rejected) with the session left as it was, provided the
    driver accepts the credential that is present (null and text always
    are) and no driver call raises. *)
Theorem login_missing_credentials st kvs w :
  available st →
  items_get "username" kvs = None ∨ items_get "password" kvs = None →
  accepted st (default VNone (items_get "username" kvs)) →
  accepted st (default VNone (items_get "password" kvs)) →
  (∀ key, items_get key kvs = None → dict_get (VDict kvs) key = inr VNone) ∧
  adapt st VNone = inr SqlNull ∧
  (∀ q r, user_matches SqlNull q r = false ∧ user_matches q SqlNull r = false) ∧
  (post_login st kvs w).1
  = Json (VDict [("success", VBool false);
                 ("message", VStr "用户名或密码错误，请重试")]) 401 ∧
  session (post_login st kvs w).2 = session w.
Proof.
  intros Hav Hmiss [u Hu] [p Hp].
  split; [|split; [|split]].
  - intros key Hkey. simpl. by rewrite Hkey.
  - done.
  - intros q r. split;
      [apply user_matches_null_username | apply user_matches_null_password].
  - unfold post_login. rewrite (api_login_available st kvs u p w Hav Hu Hp).
    assert (Hfind : List.find (user_matches u p) (users st) = None).
    { destruct Hmiss as [Hm|Hm]; rewrite Hm in *; simpl in *.
      - injection Hu as <-. apply find_null_username.
      - injection Hp as <-. apply find_null_password. }
    by rewrite Hfind.
Qed.

Lemma login_missing_credentials_witness :
  (∀ key, items_get key [("username", VStr "alice")] = None →
          dict_get (VDict [("username", VStr "alice")]) key = inr VNone) ∧
  adapt demo_store VNone = inr SqlNull ∧
  (∀ q r, user_matches SqlNull q r = false ∧ user_matches q SqlNull r = false) ∧
  (post_login demo_store [("username", VStr "alice")] initial).1
  = Json (VDict [("success", VBool false);
                 ("message", VStr "用户名或密码错误，请重试")]) 401 ∧
  session (post_login demo_store [("username", VStr "alice")] initial).2
  = session initial.
Proof.
  apply (login_missing_credentials demo_store [("username", VStr "alice")] initial).
  - intros op. reflexivity.
  - right. reflexivity.
  - exists (SqlText "alice"). reflexivity.
  - exists SqlNull. reflexivity.
Defined.

(** ** The outcome of authentication and the number of matching records *)

(** C7, as stated, fails: with two records holding the same username and
    password the login is authenticated (as the first of them), although
    the number of matching records is two, not one.  And zero matching
    records do not always give Rejected: a username with a NUL character
    matches no record and is answered 500, as is any pair when the store
    cannot be reached. *)
Lemma authenticated_with_duplicates :
  available duplicate_store ∧
  Authenticated (post_login duplicate_store (credentials "alice" "secret") initial)
                1 "alice" ∧
  length (List.filter (has_credentials "alice" "secret") (users duplicate_store)) = 2 ∧
  ¬ authenticated_iff_exactly_one duplicate_store "alice" "secret" initial ∧
  length (List.filter (has_credentials nul_name "secret") (users demo_store)) = 0 ∧
  ¬ Rejected (post_login demo_store (credentials nul_name "secret") initial) ∧
  length (List.filter (has_credentials "bob" "secret") (users unreachable_store)) = 0 ∧
  ¬ Rejected (post_login unreachable_store (credentials "bob" "secret") initial).
Proof.
  assert (Hauth : Authenticated
            (post_login duplicate_store (credentials "alice" "secret") initial)
            1 "alice").
  { split; [reflexivity | split; reflexivity]. }
  split; [intros op; reflexivity|].
  split; [exact Hauth|].
  split; [reflexivity|].
  split.
  { intros [Hone _].
    assert (Hlen : length (List.filter (has_credentials "alice" "secret")
                             (users duplicate_store)) = 1).
    { apply Hone. by exists 1%Z, "alice". }
    discriminate Hlen. }
  split; [reflexivity|]. split; [discriminate|].
  split; [reflexivity|]. discriminate.
Qed.

(** C7, amended: for string credentials, and provided no driver call
    raises, authentication succeeds exactly when at least one record holds
    the supplied username and password, and then with the user_id and
    username of the first such record (of the only one, when there is
    exactly one); and it is rejected when no record holds them and the
    credentials are text (no NUL character, no lone surrogate). *)
Theorem authenticated_iff_some_match st kvs u p w :
  available st →
  items_get "username" kvs = Some (VStr u) →
  items_get "password" kvs = Some (VStr p) →
  ((∃ id name, Authenticated (post_login st kvs w) id name) ↔
   (∃ r, r ∈ users st ∧ u_username r = u ∧ u_password r = p)) ∧
  (∀ id name, Authenticated (post_login st kvs w) id name →
     ∃ r, List.find (has_credentials u p) (users st) = Some r ∧
          id = u_id r ∧ name = u_username r ∧ name = u) ∧
  (∀ r, List.filter (has_credentials u p) (users st) = [r] →
     Authenticated (post_login st kvs w) (u_id r) (u_username r)) ∧
  (is_text u = true → is_text p = true →
   (Rejected (post_login st kvs w) ↔
    (∀ r, r ∈ users st → ¬ (u_username r = u ∧ u_password r = p)))).
Proof.
  intros Hav Hu Hp.
  destruct (is_text u && is_text p) eqn:Ht.
  - apply andb_true_iff in Ht as [Htu Htp].
    pose proof (post_login_strings st kvs u p w Hav Hu Hp Htu Htp) as Hrun.
    destruct (List.find (has_credentials u p) (users st)) as [m|] eqn:Hfind.
    + apply find_some_elem in Hfind as Hm. destruct Hm as [Hmin Hmc].
      apply has_credentials_spec in Hmc as [Hmu Hmp].
      assert (Hauth : Authenticated (post_login st kvs w) (u_id m) (u_username m)).
      { rewrite Hrun. split; [done|]. simpl. split.
        - rewrite lookup_insert_ne by done. by rewrite lookup_insert_eq.
        - by rewrite lookup_insert_eq. }
      split; [|split; [|split]].
      * split; [intros _; by exists m | intros _; by exists (u_id m), (u_username m)].
      * intros id name (Hresp & Hid & Hname). exists m.
        destruct Hauth as (_ & Hid' & Hname').
        rewrite Hid in Hid'. rewrite Hname in Hname'.
        injection Hid' as ->. injection Hname' as ->. done.
      * intros r Hr. rewrite <- head_filter_find, Hr in Hfind.
        injection Hfind as ->. done.
      * intros _ _. unfold Rejected. rewrite Hrun. simpl. split; [discriminate|].
        intros Hno. by destruct (Hno m Hmin).
    + assert (Hno : ∀ r, r ∈ users st → ¬ (u_username r = u ∧ u_password r = p)).
      { intros r Hr Hc. apply has_credentials_spec in Hc.
        rewrite find_none_iff in Hfind. rewrite (Hfind r Hr) in Hc. discriminate. }
      split; [|split; [|split]].
      * split.
        -- intros (id & name & Hresp & _). rewrite Hrun in Hresp. discriminate Hresp.
        -- intros (r & Hr & Hc). by destruct (Hno r Hr).
      * intros id name (Hresp & _). rewrite Hrun in Hresp. discriminate Hresp.
      * intros r Hr. rewrite <- head_filter_find, Hr in Hfind. discriminate.
      * intros _ _. unfold Rejected. rewrite Hrun. done.
  - destruct (post_login_not_text st kvs u p w Hu Hp Ht) as [e He].
    assert (Hno : ∀ r, r ∈ users st → ¬ (u_username r = u ∧ u_password r = p)).
    { intros r Hr [Hru Hrp].
      destruct (row_text r) as [Htu Htp]. rewrite Hru in Htu. rewrite Hrp in Htp.
      rewrite Htu, Htp in Ht. discriminate. }
    split; [|split; [|split]].
    + split.
      * intros (id & name & Hresp & _). rewrite He in Hresp. discriminate Hresp.
      * intros (r & Hr & Hc). by destruct (Hno r Hr).
    + intros id name (Hresp & _). rewrite He in Hresp. discriminate Hresp.
    + intros r Hr.
      assert (Hin : In r (List.filter (has_credentials u p) (users st)))
        by (rewrite Hr; by left).
      apply filter_In in Hin as [Hin Hc]. apply has_credentials_spec in Hc.
      apply list_elem_of_In in Hin. by destruct (Hno r Hin).
    + intros Htu Htp. rewrite Htu, Htp in Ht. discriminate.
Qed.

Lemma authenticated_iff_some_match_witness :
  ((∃ id name, Authenticated
       (post_login duplicate_store (credentials "alice" "secret") initial) id name) ↔
   (∃ r, r ∈ users duplicate_store ∧ u_username r = "alice" ∧ u_password r = "secret")) ∧
  (∀ id name, Authenticated
       (post_login duplicate_store (credentials "alice" "secret") initial) id name →
     ∃ r, List.find (has_credentials "alice" "secret") (users duplicate_store) = Some r ∧
          id = u_id r ∧ name = u_username r ∧ name = "alice") ∧
  (∀ r, List.filter (has_credentials "alice" "secret") (users duplicate_store) = [r] →
     Authenticated (post_login duplicate_store (credentials "alice" "secret") initial)
                   (u_id r) (u_username r)) ∧
  (is_text "alice" = true → is_text "secret" = true →
   (Rejected (post_login duplicate_store (credentials "alice" "secret") initial) ↔
    (∀ r, r ∈ users duplicate_store →
          ¬ (u_username r = "alice" ∧ u_password r = "secret")))).
Proof.
  apply (authenticated_iff_some_match duplicate_store
           (credentials "alice" "secret") "alice" "secret" initial).
  - intros op. reflexivity.
  - reflexivity.
  - reflexivity.
Defined.

(** ** Every run of the login handler *)

(** The two ways the [try] block can raise: with the world untouched, or
    with the connection it opened still open. *)
Ltac raised_before_connect :=
  left; eexists _, _;
  split; [reflexivity | split; [reflexivity | left; reflexivity]].

Ltac raised_after_connect :=
  left; eexists _, _;
  split; [reflexivity | split; [reflexivity | right; reflexivity]].

(** The [try] block ends in one of three ways, whatever the store and the
    body: an exception, raised before the session is touched; a rejection;
    or a success for a stored record, whose id and username are written. *)
Lemma api_login_try_cases st body w :
  (∃ e w', api_login_try st body w = (inl e, w') ∧ session w' = session w ∧
           (w' = w ∨
            w' = {| session := session w;
                    open_conns := {[next_conn w]} ∪ open_conns w;
                    next_conn := S (next_conn w) |})) ∨
  api_login_try st body w
  = (inr (Json login_rejected_body 401),
     {| session := session w;
        open_conns := ({[next_conn w]} ∪ open_conns w) ∖ {[next_conn w]};
        next_conn := S (next_conn w) |}) ∨
  (∃ r, r ∈ users st ∧
        api_login_try st body w
        = (inr (Json (login_ok_body (VStr (u_username r))) 200),
           {| session := <["username" := VStr (u_username r)]>
                           (<["user_id" := VInt (u_id r)]> (session w));
              open_conns := ({[next_conn w]} ∪ open_conns w) ∖ {[next_conn w]};
              next_conn := S (next_conn w) |})).
Proof.
  unfold api_login_try, get_db_connection, conn_cursor, execute, fetchone,
    cursor_close, conn_close, check, bind, lift, raise, ret.
  destruct body as [e|data]; [raised_before_connect|].
  destruct (dict_get data "username") as [e|username]; [raised_before_connect|].
  destruct (dict_get data "password") as [e|password]; [raised_before_connect|].
  destruct (print_attempt st username) as [e|[]]; [raised_before_connect|].
  destruct (fault st OpConnect); [raised_before_connect|].
  destruct (fault st OpCursor); [raised_after_connect|].
  destruct (adapt st username) as [e|u]; [raised_after_connect|].
  destruct (adapt st password) as [e|p]; [raised_after_connect|].
  destruct (fault st OpExecute); [raised_after_connect|].
  destruct (fault st OpFetchone); [raised_after_connect|].
  destruct (fault st OpCursorClose); [raised_after_connect|].
  destruct (fault st OpClose); [raised_after_connect|].
  cbv beta iota. unfold select_user. cbn [cur_rows].
  destruct (List.filter (user_matches u p) (users st)) as [|r rest] eqn:Hf.
  - right; left. reflexivity.
  - right; right. exists r. split; [|reflexivity].
    apply list_elem_of_In.
    assert (Hin : In r (List.filter (user_matches u p) (users st)))
      by (rewrite Hf; by left).
    by apply filter_In in Hin as [? _].
Qed.

(** The session after a login attempt is the session before, or the
    session before with the id and the username of a stored record. *)
Lemma api_login_session st body w :
  session (api_login st body w).2 = session w ∨
  ∃ r, r ∈ users st ∧
       session (api_login st body w).2
       = <["username" := VStr (u_username r)]>
           (<["user_id" := VInt (u_id r)]> (session w)).
Proof.
  unfold api_login.
  destruct (api_login_try_cases st body w)
    as [(e & w' & -> & Hs & _) | [-> | (r & Hr & ->)]].
  - by left.
  - by left.
  - right. by exists r.
Qed.

(** An answer other than 500 means that the [try] block did not raise. *)
Lemma api_login_status st body w :
  (∃ e w', api_login_try st body w = (inl e, w') ∧
           api_login st body w = (Json (login_error_body e) 500, w')) ∨
  (api_login st body w).1 = Json login_rejected_body 401 ∨
  (∃ name, (api_login st body w).1 = Json (login_ok_body (VStr name)) 200).
Proof.
  unfold api_login.
  destruct (api_login_try_cases st body w)
    as [(e & w' & -> & _) | [-> | (r & Hr & ->)]].
  - left. by exists e, w'.
  - right; by left.
  - right; right. by eexists.
Qed.

Lemma fresh_release (n : nat) (s : gset nat) :
  n ∉ s → ({[n]} ∪ s) ∖ {[n]} = s.
Proof.
  intros Hn. apply set_eq. intros x.
  rewrite elem_of_difference, elem_of_union, elem_of_singleton.
  split.
  - intros [[->|Hx] Hne]; done.
  - intros Hx. split; [by right | by intros ->].
Qed.

Lemma fresh_not_open w : fresh w → next_conn w ∉ open_conns w.
Proof. intros Hf Hin. apply Hf in Hin. lia. Qed.

(** On the two paths that reach [conn.close()] the connection opened by
    the call is closed again. *)
Lemma api_login_releases_connection st body w :
  fresh w →
  (∀ b, (api_login st body w).1 ≠ Json b 500) →
  open_conns (api_login st body w).2 = open_conns w.
Proof.
  intros Hf Hno. unfold api_login in *.
  destruct (api_login_try_cases st body w)
    as [(e & w' & Hrun & _) | [Hrun | (r & Hr & Hrun)]];
    rewrite Hrun in Hno |- *; simpl.
  - by destruct (Hno (login_error_body e)).
  - by apply fresh_release, fresh_not_open.
  - by apply fresh_release, fresh_not_open.
Qed.

(** An exception raised after the connection was opened leaves it open:
    no [conn.close()] is on that path. *)
Lemma api_login_error_after_connect st kvs w e :
  print_attempt st (default VNone (items_get "username" kvs)) = inr tt →
  fault st OpConnect = None →
  (api_login st (inr (VDict kvs)) w).1 = Json (login_error_body e) 500 →
  next_conn w ∈ open_conns (api_login st (inr (VDict kvs)) w).2.
Proof.
  intros Hprint Hc. unfold api_login, api_login_try, get_db_connection, conn_cursor,
    execute, fetchone, cursor_close, conn_close, check, bind, lift, raise, ret,
    dict_get.
  rewrite Hprint, Hc.
  destruct (fault st OpCursor); [intros _; simpl; set_solver|].
  destruct (adapt st _) as [?|u]; [intros _; simpl; set_solver|].
  destruct (adapt st _) as [?|p]; [intros _; simpl; set_solver|].
  destruct (fault st OpExecute); [intros _; simpl; set_solver|].
  destruct (fault st OpFetchone); [intros _; simpl; set_solver|].
  destruct (fault st OpCursorClose); [intros _; simpl; set_solver|].
  destruct (fault st OpClose); [intros _; simpl; set_solver|].
  cbv beta iota. unfold select_user. cbn [cur_rows].
  destruct (List.filter (user_matches u p) (users st)); simpl; discriminate.
Qed.

(** ** Service errors *)

(** A connection that cannot be opened: the text of the driver's exception
    is reported and the world is as before. *)
Lemma api_login_connect_fault st kvs w e :
  print_attempt st (default VNone (items_get "username" kvs)) = inr tt →
  fault st OpConnect = Some e →
  post_login st kvs w = (Json (login_error_body e) 500, w).
Proof.
  intros Hprint Hc.
  unfold post_login, api_login, api_login_try, get_db_connection, check,
    bind, lift, raise, dict_get.
  by rewrite Hprint, Hc.
Qed.

(** With credentials the driver accepts, the exceptions left are those of
    the driver calls. *)
Lemma login_error_first_fault st kvs :
  accepted st (default VNone (items_get "username" kvs)) →
  accepted st (default VNone (items_get "password" kvs)) →
  login_error st (inr (VDict kvs)) = first_fault st.
Proof.
  intros [qu Hu] [qp Hp].
  unfold login_error, first_fault, call_order, dict_get.
  rewrite Hu, Hp, (adapt_prints st _ qu Hu). simpl.
  destruct (fault st OpConnect); [done|].
  by destruct (fault st OpCursor).
Qed.

(** C3: whenever an exception occurs during a POST to /api/login, be it
    a store-connectivity or query error (connect, cursor, the adaptation
    of a parameter, execute, fetchone, cursor.close, conn.close) or one of
    the exceptions before the store is reached, the handler answers 500
    with success false and the message "服务器错误: " followed by the text
    of that exception; the answer is never the 401 rejection, and the
    handler, a total function to a response, lets nothing escape.  The
    session is as it was before the request. *)
Theorem login_exception_answered_500 st body w e :
  login_error st body = Some e →
  (api_login st body w).1
  = Json (VDict [("success", VBool false);
                 ("message", VStr ("服务器错误: " ++ e))]) 500 ∧
  ServiceError (api_login st body w) e ∧
  ¬ Rejected (api_login st body w) ∧
  (∀ b, (api_login st body w).1 ≠ Json b 401) ∧
  session (api_login st body w).2 = session w.
Proof.
  intros He.
  destruct (api_login_error st body w e He) as [Hresp Hs].
  unfold ServiceError, Rejected. rewrite Hresp.
  split; [done|]. split; [done|]. split; [discriminate|].
  split; [intros b; discriminate | done].
Qed.

Lemma login_exception_answered_500_witness :
  (api_login failing_query_store
     (inr (VDict (credentials "alice" "secret"))) initial).1
  = Json (VDict [("success", VBool false);
                 ("message",
                  VStr ("服务器错误: " ++ "relation users does not exist"))]) 500 ∧
  ServiceError
    (api_login failing_query_store (inr (VDict (credentials "alice" "secret"))) initial)
    "relation users does not exist" ∧
  ¬ Rejected
    (api_login failing_query_store (inr (VDict (credentials "alice" "secret"))) initial) ∧
  (∀ b, (api_login failing_query_store
           (inr (VDict (credentials "alice" "secret"))) initial).1 ≠ Json b 401) ∧
  session (api_login failing_query_store
             (inr (VDict (credentials "alice" "secret"))) initial).2
  = session initial.
Proof.
  apply (login_exception_answered_500 failing_query_store
           (inr (VDict (credentials "alice" "secret"))) initial
           "relation users does not exist").
  reflexivity.
Defined.

(** A body that is not a JSON object, or that could not be parsed at all,
    is answered 500 as well. *)
Example login_null_body :
  (api_login demo_store (inr VNone) initial).1
  = Json (VDict [("success", VBool false);
                 ("message",
                  VStr "服务器错误: 'NoneType' object has no attribute 'get'")]) 500.
Proof. reflexivity. Qed.

Example login_unparsed_body :
  (api_login demo_store (inl "400 Bad Request") initial).1
  = Json (VDict [("success", VBool false);
                 ("message", VStr "服务器错误: 400 Bad Request")]) 500.
Proof. reflexivity. Qed.

(** ** Login state *)

(** C4: the client counts as logged in exactly when the session holds the
    key user_id: is_logged_in is true exactly then, and /api/check answers
    logged_in true with the session's username exactly then, and
    logged_in false exactly when the key is absent.  This holds in every
    session state, reachable or not. *)
Theorem logged_in_iff_user_id w :
  (is_logged_in w = true ↔ is_Some (session w !! "user_id")) ∧
  ((api_check w).1
   = Json (VDict [("logged_in", VBool true);
                  ("username", default VNone (session w !! "username"))]) 200
   ↔ is_Some (session w !! "user_id")) ∧
  ((api_check w).1 = Json (VDict [("logged_in", VBool false)]) 200
   ↔ session w !! "user_id" = None) ∧
  (api_check w).2 = w.
Proof.
  split; [apply is_logged_in_spec|].
  unfold api_check, session_get.
  destruct (is_logged_in w) eqn:Hl; simpl.
  - apply is_logged_in_spec in Hl.
    split; [done|]. split; [|done]. split; [discriminate|].
    intros Hn. rewrite Hn in Hl. by destruct Hl.
  - apply is_logged_in_false in Hl.
    split; [|done]. split; [discriminate|].
    intros Hs. rewrite Hl in Hs. by destruct Hs.
Qed.

(** C5: GET /home renders home.html, with the username of the session,
    exactly when the session holds user_id; otherwise, and only then, it
    answers with a redirect to the login page /login.  No template is
    rendered for a session without user_id, and the session is not
    changed. *)
Theorem home_guard w :
  ((home w).1
   = Template "home.html"
       [("username", default (VStr "访客") (session w !! "username"))]
   ↔ is_Some (session w !! "user_id")) ∧
  ((home w).1 = Redirect "/login" ↔ session w !! "user_id" = None) ∧
  (∀ name context, (home w).1 = Template name context →
                   is_Some (session w !! "user_id")) ∧
  (home w).2 = w.
Proof.
  unfold home, session_get.
  destruct (is_logged_in w) eqn:Hl; simpl.
  - apply is_logged_in_spec in Hl.
    split; [done|]. split; [|done]. split; [discriminate|].
    intros Hn. rewrite Hn in Hl. by destruct Hl.
  - apply is_logged_in_false in Hl.
    split; [|split; [done | split; [discriminate | done]]].
    split; [discriminate|].
    intros Hs. rewrite Hl in Hs. by destruct Hs.
Qed.

(** C6: POST /api/logout answers 200 with success true from every session
    state, leaves the session empty, hence anonymous, and doing it again
    changes nothing: same answer, same state. *)
Theorem logout_idempotent w :
  (api_logout w).1
  = Json (VDict [("success", VBool true); ("message", VStr "已成功登出")]) 200 ∧
  session (api_logout w).2 = ∅ ∧
  (∀ key, session (api_logout w).2 !! key = None) ∧
  is_logged_in (api_logout w).2 = false ∧
  api_logout (api_logout w).2 = api_logout w.
Proof.
  split; [done|]. split; [done|]. split; [|split; [|done]].
  - intros key. simpl. apply lookup_empty.
  - apply is_logged_in_false. simpl. apply lookup_empty.
Qed.

(** ** Database connections *)

(** C8: a login whose query raises after the connection was opened is
    answered 500 with the connection still open: [conn.close()] is only on
    the path on which nothing raises. *)
Theorem login_query_error_leaves_connection_open :
  api_login failing_query_store (inr (VDict (credentials "alice" "secret"))) initial
  = (Json (VDict [("success", VBool false);
                  ("message", VStr "服务器错误: relation users does not exist")]) 500,
     {| session := ∅; open_conns := {[0]}; next_conn := 1 |}) ∧
  open_conns initial = ∅ ∧
  0 ∈ open_conns
        (api_login failing_query_store
           (inr (VDict (credentials "alice" "secret"))) initial).2.
Proof.
  split; [|split].
  - reflexivity.
  - reflexivity.
  - apply (api_login_error_after_connect failing_query_store
             (credentials "alice" "secret") initial
             "relation users does not exist"); reflexivity.
Qed.

(** ** The session invariant *)

Lemma test_database_session st w : session (test_database st w).2 = session w.
Proof.
  unfold test_database, test_database_try, get_db_connection, conn_cursor,
    execute, fetchone, cursor_close, conn_close, check, bind, lift, raise, ret.
  repeat match goal with
         | |- context [fault st ?op] => destruct (fault st op)
         end; reflexivity.
Qed.

(** What a request does to the session: nothing, or a login writes the id
    and the username of a stored record, or a logout empties it. *)
Lemma handle_session st req w :
  session (handle st req w).2 = session w ∨
  (∃ body r, req = PostApiLogin body ∧ r ∈ users st ∧
             session (handle st req w).2
             = <["username" := VStr (u_username r)]>
                 (<["user_id" := VInt (u_id r)]> (session w))) ∨
  (req = PostApiLogout ∧ session (handle st req w).2 = ∅).
Proof.
  destruct req as [| | |body| | | |]; simpl.
  - left. unfold index_page. by destruct (is_logged_in w).
  - by left.
  - left. unfold home. by destruct (negb (is_logged_in w)).
  - destruct (api_login_session st body w) as [Hs | (r & Hr & Hs)].
    + by left.
    + right; left. by exists body, r.
  - left. unfold api_check. by destruct (is_logged_in w).
  - right; right. done.
  - left. apply test_database_session.
  - by left.
Qed.

Lemma session_inv_login (s : gmap string pyval) (id name : pyval) :
  session_inv (<["username" := name]> (<["user_id" := id]> s)).
Proof.
  unfold session_inv.
  rewrite lookup_insert_ne by done. rewrite !lookup_insert_eq.
  split; intros _; by eexists.
Qed.

Lemma session_inv_empty : session_inv (∅ : gmap string pyval).
Proof. unfold session_inv. rewrite !lookup_empty. done. Qed.

Lemma session_typed_empty : session_typed (∅ : gmap string pyval).
Proof. left. by rewrite !lookup_empty. Qed.

Lemma reachable_typed w : reachable w → session_typed (session w).
Proof.
  induction 1 as [|st req w Hw IH|w Hw IH].
  - apply session_typed_empty.
  - destruct (handle_session st req w)
      as [Hs | [(body & r & _ & _ & Hs) | [_ Hs]]]; rewrite Hs.
    + done.
    + right. exists (u_id r), (u_username r).
      rewrite lookup_insert_ne by done. by rewrite !lookup_insert_eq.
    + apply session_typed_empty.
  - apply session_typed_empty.
Qed.

(** C9: every operation preserves the invariant that the session holds
    user_id exactly when it holds username: a request leaves the session
    as it is, or is a login that writes both keys, or is a logout that
    empties it.  The invariant therefore holds in every reachable state,
    and there an answer logged_in true of /api/check carries the string
    stored under username, not null. *)
Theorem session_keys_together :
  (∀ st req w, session_inv (session w) → session_inv (session (handle st req w).2)) ∧
  (∀ st req w,
     session (handle st req w).2 = session w ∨
     (∃ body id name, req = PostApiLogin body ∧
        session (handle st req w).2
        = <["username" := VStr name]> (<["user_id" := VInt id]> (session w))) ∨
     (req = PostApiLogout ∧ session (handle st req w).2 = ∅)) ∧
  (∀ w, reachable w → session_inv (session w)) ∧
  (∀ w v, reachable w →
     (api_check w).1 = Json (VDict [("logged_in", VBool true); ("username", v)]) 200 →
     ∃ name, v = VStr name ∧ session w !! "username" = Some (VStr name)).
Proof.
  split; [|split; [|split]].
  - intros st req w Hinv.
    destruct (handle_session st req w)
      as [Hs | [(body & r & _ & _ & Hs) | [_ Hs]]]; rewrite Hs.
    + done.
    + apply session_inv_login.
    + apply session_inv_empty.
  - intros st req w.
    destruct (handle_session st req w)
      as [Hs | [(body & r & Hreq & _ & Hs) | Hs]].
    + by left.
    + right; left. by exists body, (u_id r), (u_username r).
    + by right; right.
  - intros w Hw. unfold session_inv.
    destruct (reachable_typed w Hw) as [[-> ->] | (id & name & -> & ->)].
    + done.
    + split; intros _; by eexists.
  - intros w v Hw. unfold api_check, session_get.
    destruct (is_logged_in w) eqn:Hl; simpl; [|discriminate].
    apply is_logged_in_spec in Hl.
    destruct (reachable_typed w Hw) as [[Hn _] | (id & name & _ & Hname)].
    + rewrite Hn in Hl. by destruct Hl.
    + rewrite Hname. simpl. intros [= <-]. by exists name.
Qed.

(** ** Handles stay fresh *)

Lemma test_database_fresh st w : fresh w → fresh (test_database st w).2.
Proof.
  intros Hf.
  unfold test_database, test_database_try, get_db_connection, conn_cursor,
    execute, fetchone, cursor_close, conn_close, check, bind, lift, raise, ret.
  repeat match goal with
         | |- context [fault st ?op] => destruct (fault st op)
         end; simpl; try done;
    intros c; simpl;
    rewrite ?elem_of_difference, elem_of_union, elem_of_singleton;
    intros Hc; assert (c = next_conn w ∨ c ∈ open_conns w) as [->|Hin] by tauto;
    try lia; apply Hf in Hin; lia.
Qed.

Lemma api_login_fresh st body w : fresh w → fresh (api_login st body w).2.
Proof.
  intros Hf. unfold api_login.
  destruct (api_login_try_cases st body w)
    as [(e & w' & -> & _ & [-> | ->]) | [-> | (r & _ & ->)]];
    try done; intros c; simpl;
    rewrite ?elem_of_difference, elem_of_union, elem_of_singleton;
    intros Hc; assert (c = next_conn w ∨ c ∈ open_conns w) as [->|Hin] by tauto;
    try lia; apply Hf in Hin; lia.
Qed.

Lemma handle_fresh st req w : fresh w → fresh (handle st req w).2.
Proof.
  intros Hf. destruct req as [| | |body| | | |]; simpl; try done.
  - unfold index_page. by destruct (is_logged_in w).
  - unfold home. by destruct (negb (is_logged_in w)).
  - by apply api_login_fresh.
  - unfold api_check. by destruct (is_logged_in w).
  - by apply test_database_fresh.
Qed.

Lemma reachable_fresh w : reachable w → fresh w.
Proof.
  induction 1 as [|st req w Hw IH|w Hw IH].
  - intros c Hc. simpl in Hc. by apply not_elem_of_empty in Hc.
  - by apply handle_fresh.
  - done.
Qed.

(** For a client in a reachable state, a login that is answered 200 or 401
    leaves open exactly the connections that were open before. *)
Lemma reachable_login_releases_connection st body w :
  reachable w →
  (∀ b, (api_login st body w).1 ≠ Json b 500) →
  open_conns (api_login st body w).2 = open_conns w.
Proof.
  intros Hw. apply api_login_releases_connection. by apply reachable_fresh.
Qed.

(** ** The scenarios of the specification *)

Example scenario_login :
  post_login demo_store (credentials "alice" "secret") initial
  = (Json (VDict [("success", VBool true);
                  ("message", VStr "登录成功！");
                  ("username", VStr "alice")]) 200,
     {| session := <["username" := VStr "alice"]> (<["user_id" := VInt 1]> ∅);
        open_conns := ∅;
        next_conn := 1 |}).
Proof. reflexivity. Qed.

Example scenario_wrong_password :
  (post_login demo_store (credentials "alice" "guess") initial).1
  = Json (VDict [("success", VBool false);
                 ("message", VStr "用户名或密码错误，请重试")]) 401.
Proof. reflexivity. Qed.

Example scenario_check_anonymous :
  (api_check initial).1 = Json (VDict [("logged_in", VBool false)]) 200.
Proof. reflexivity. Qed.

Example scenario_logout :
  (api_check
     (api_logout
        (post_login demo_store (credentials "alice" "secret") initial).2).2).1
  = Json (VDict [("logged_in", VBool false)]) 200.
Proof. reflexivity. Qed.

Example scenario_store_down :
  (post_login unreachable_store (credentials "alice" "secret") initial).1
  = Json (VDict [("success", VBool false);
                 ("message", VStr "服务器错误: connection refused")]) 500.
Proof. reflexivity. Qed.

(** * Further properties of the handlers *)

(** ** Every run of the database test *)

Ltac destruct_faults st :=
  repeat match goal with
         | |- context [fault st ?op] => destruct (fault st op)
         end.

(** [test_database_try] raises with the world as it was or with its
    connection left open, or returns the number of rows with the
    connection closed. *)
Lemma test_database_try_cases st w :
  (∃ e w', test_database_try st w = (inl e, w') ∧
           ((w' = w ∧ fault st OpConnect = Some e) ∨
            (w' = connected w ∧ fault st OpConnect = None))) ∨
  ((∀ op, fault st op = None) ∧
   test_database_try st w
   = (inr (Json (test_db_ok_body (VInt (Z.of_nat (length (users st))))) 200),
      released w)).
Proof.
  unfold test_database_try, get_db_connection, conn_cursor, execute, fetchone,
    cursor_close, conn_close, check, bind, lift, raise, ret.
  destruct (fault st OpConnect) eqn:Hconnect;
    [left; eexists _, _; split; [reflexivity | by left]|].
  destruct (fault st OpCursor) eqn:Hcursor;
    [left; eexists _, _; split; [reflexivity | by right]|].
  destruct (fault st OpExecute) eqn:Hexecute;
    [left; eexists _, _; split; [reflexivity | by right]|].
  destruct (fault st OpFetchone) eqn:Hfetch;
    [left; eexists _, _; split; [reflexivity | by right]|].
  destruct (fault st OpCursorClose) eqn:Hcc;
    [left; eexists _, _; split; [reflexivity | by right]|].
  destruct (fault st OpClose) eqn:Hclose;
    [left; eexists _, _; split; [reflexivity | by right]|].
  right. split; [by intros []|reflexivity].
Qed.

Lemma released_fresh w : fresh w → open_conns (released w) = open_conns w.
Proof. intros Hf. simpl. by apply fresh_release, fresh_not_open. Qed.

Lemma connected_open w : next_conn w ∈ open_conns (connected w).
Proof. simpl. apply elem_of_union_l. by apply elem_of_singleton. Qed.

Lemma first_fault_none st : first_fault st = None ↔ available st.
Proof.
  unfold first_fault, call_order, available. simpl. split.
  - intros H op.
    destruct (fault st OpConnect) eqn:?; [done|].
    destruct (fault st OpCursor) eqn:?; [done|].
    destruct (fault st OpExecute) eqn:?; [done|].
    destruct (fault st OpFetchone) eqn:?; [done|].
    destruct (fault st OpCursorClose) eqn:?; [done|].
    destruct (fault st OpClose) eqn:?; [done|].
    by destruct op.
  - intros H. by rewrite !H.
Qed.

Lemma test_database_response st w :
  (test_database st w).1
  = match first_fault st with
    | None => Json (test_db_ok_body (VInt (Z.of_nat (length (users st))))) 200
    | Some e => Json (test_db_error_body e) 500
    end.
Proof.
  unfold test_database, test_database_try, get_db_connection, conn_cursor,
    execute, fetchone, cursor_close, conn_close, check, bind, lift, raise, ret,
    first_fault, call_order.
  simpl omap.
  destruct (fault st OpConnect); [reflexivity|].
  destruct (fault st OpCursor); [reflexivity|].
  destruct (fault st OpExecute); [reflexivity|].
  destruct (fault st OpFetchone); [reflexivity|].
  destruct (fault st OpCursorClose); [reflexivity|].
  destruct (fault st OpClose); reflexivity.
Qed.

(** ** GET /api/test-db *)

(** X1: /api/test-db answers 200 with the number of rows of users when no
    driver call raises, and otherwise 500 with "数据库连接失败: " followed by
    the text of the first call that raises, in the order connect, cursor,
    execute, fetchone, cursor.close, conn.close.  The answer depends on
    the store alone: the handler asks for no login and reads no session,
    and it leaves the session as it is. *)
Theorem test_database_answer st w :
  (test_database st w).1
  = match first_fault st with
    | None =>
        Json (VDict [("success", VBool true);
                     ("message", VStr "数据库连接正常");
                     ("user_count", VInt (Z.of_nat (length (users st))))]) 200
    | Some e =>
        Json (VDict [("success", VBool false);
                     ("message", VStr ("数据库连接失败: " ++ e))]) 500
    end ∧
  (∀ w', (test_database st w').1 = (test_database st w).1) ∧
  session (test_database st w).2 = session w.
Proof.
  split; [apply test_database_response|]. split.
  - intros w'. by rewrite !test_database_response.
  - apply test_database_session.
Qed.

(** X2: /api/test-db closes the connection it opened exactly when it
    answers 200; when a call after a successful connect raises, the
    handler answers 500 with that connection still open.  When the
    connect itself raises, no connection is opened. *)
Theorem test_database_connection st w :
  fresh w →
  (fault st OpConnect = None →
   (open_conns (test_database st w).2 = open_conns w ↔
    ∃ count, (test_database st w).1 = Json (test_db_ok_body count) 200)) ∧
  (fault st OpConnect = None →
   (∃ e, (test_database st w).1 = Json (test_db_error_body e) 500) →
   next_conn w ∈ open_conns (test_database st w).2) ∧
  (is_Some (fault st OpConnect) → (test_database st w).2 = w).
Proof.
  intros Hf. unfold test_database.
  destruct (test_database_try_cases st w)
    as [(e & w' & -> & [[-> Hc] | [-> Hc]]) | [Hav ->]]; simpl; rewrite ?Hc.
  - split; [discriminate|]. split; [discriminate|done].
  - split; [|split].
    + intros _. split; [|intros [count [=]]].
      intros Heq. exfalso. apply (fresh_not_open w Hf).
      rewrite <- Heq. apply elem_of_union_l. by apply elem_of_singleton.
    + intros _ _. apply elem_of_union_l. by apply elem_of_singleton.
    + by intros [e' [=]].
  - split; [|split].
    + intros _. split; [by eexists|]. intros _.
      by apply fresh_release, fresh_not_open.
    + intros _ [e [=]].
    + rewrite Hav. by intros [? [=]].
Qed.

Lemma test_database_connection_witness :
  (fault no_cursor_store OpConnect = None →
   (open_conns (test_database no_cursor_store initial).2 = open_conns initial ↔
    ∃ count, (test_database no_cursor_store initial).1
             = Json (test_db_ok_body count) 200)) ∧
  (fault no_cursor_store OpConnect = None →
   (∃ e, (test_database no_cursor_store initial).1
         = Json (test_db_error_body e) 500) →
   next_conn initial ∈ open_conns (test_database no_cursor_store initial).2) ∧
  (is_Some (fault no_cursor_store OpConnect) →
   (test_database no_cursor_store initial).2 = initial).
Proof.
  apply (test_database_connection no_cursor_store initial).
  intros c Hc. simpl in Hc. by apply not_elem_of_empty in Hc.
Defined.

(** ** POST /api/login: what an attempt leaves behind *)

(** X3: a login attempt that is not answered 200, whatever the store, the
    body and the reason (rejection or exception), leaves the session
    exactly as it was: a failed attempt never logs the current user out. *)
Theorem login_failure_keeps_session st body w :
  (∀ b, (api_login st body w).1 ≠ Json b 200) →
  session (api_login st body w).2 = session w ∧
  is_logged_in (api_login st body w).2 = is_logged_in w.
Proof.
  intros Hno.
  assert (Hs : session (api_login st body w).2 = session w).
  { unfold api_login in *.
    destruct (api_login_try_cases st body w)
      as [(e & w' & Hrun & Hs & _) | [Hrun | (r & _ & Hrun)]];
      rewrite Hrun in Hno |- *; simpl; try done.
    by destruct (Hno (login_ok_body (VStr (u_username r)))). }
  split; [done|]. unfold is_logged_in. by rewrite Hs.
Qed.

Lemma login_failure_keeps_session_witness :
  session (api_login no_cursor_store (inr (VDict (credentials "alice" "secret")))
             (post_login demo_store (credentials "alice" "secret") initial).2).2
  = session (post_login demo_store (credentials "alice" "secret") initial).2 ∧
  is_logged_in
    (api_login no_cursor_store (inr (VDict (credentials "alice" "secret")))
       (post_login demo_store (credentials "alice" "secret") initial).2).2
  = is_logged_in (post_login demo_store (credentials "alice" "secret") initial).2.
Proof.
  apply (login_failure_keeps_session no_cursor_store
           (inr (VDict (credentials "alice" "secret")))
           (post_login demo_store (credentials "alice" "secret") initial).2).
  intros b. vm_compute. discriminate.
Defined.

(** X4: a login attempt writes no session key other than user_id and
    username: every other key keeps its value, and the session is not
    cleared before the two keys are set. *)
Theorem login_keeps_other_keys st body w key :
  key ≠ "user_id" → key ≠ "username" →
  session (api_login st body w).2 !! key = session w !! key.
Proof.
  intros Hid Hname.
  destruct (api_login_session st body w) as [-> | (r & _ & ->)]; [done|].
  by rewrite !lookup_insert_ne.
Qed.

Lemma login_keeps_other_keys_witness :
  session (api_login demo_store (inr (VDict (credentials "alice" "secret")))
             (with_session {["theme" := VStr "dark"]} initial)).2 !! "theme"
  = session (with_session {["theme" := VStr "dark"]} initial) !! "theme".
Proof.
  apply (login_keeps_other_keys demo_store
           (inr (VDict (credentials "alice" "secret")))
           (with_session {["theme" := VStr "dark"]} initial) "theme").
  - discriminate.
  - discriminate.
Defined.

Ltac same_failure :=
  split; [reflexivity | intros [b Hb]; discriminate Hb].

(** X5: the answer of /api/login, and on success the user_id and username
    it stores, depend on the store and the body alone, not on the session
    or on who is logged in: the handler has no guard against logging in
    again. *)
Theorem login_answer_ignores_session st body w w' :
  (api_login st body w).1 = (api_login st body w').1 ∧
  ((∃ b, (api_login st body w).1 = Json b 200) →
   session (api_login st body w).2 !! "user_id"
   = session (api_login st body w').2 !! "user_id" ∧
   session (api_login st body w).2 !! "username"
   = session (api_login st body w').2 !! "username").
Proof.
  unfold api_login, api_login_try, get_db_connection, conn_cursor, execute,
    fetchone, cursor_close, conn_close, check, bind, lift, raise, ret.
  destruct body as [e|data]; [same_failure|].
  destruct (dict_get data "username") as [e|username]; [same_failure|].
  destruct (dict_get data "password") as [e|password]; [same_failure|].
  destruct (print_attempt st username) as [e|[]]; [same_failure|].
  destruct (fault st OpConnect); [same_failure|].
  destruct (fault st OpCursor); [same_failure|].
  destruct (adapt st username) as [e|qu]; [same_failure|].
  destruct (adapt st password) as [e|qp]; [same_failure|].
  destruct (fault st OpExecute); [same_failure|].
  destruct (fault st OpFetchone); [same_failure|].
  destruct (fault st OpCursorClose); [same_failure|].
  destruct (fault st OpClose); [same_failure|].
  cbv beta iota. unfold select_user. cbn [cur_rows].
  destruct (List.filter (user_matches qu qp) (users st)) as [|r rest].
  - same_failure.
  - split; [reflexivity|]. intros _. simpl.
    rewrite !(lookup_insert_ne _ "username" "user_id") by done.
    by rewrite !lookup_insert_eq.
Qed.

(** ** POST /api/login: what is read of the body *)

(** X6: a body that could not be parsed, or that is valid JSON but not an
    object (null, a boolean, a number, a string, an array), is answered
    500, with the text of the parse error or of the AttributeError of
    [data.get], before any connection is opened: the world is unchanged. *)
Theorem login_body_not_an_object st body w :
  (∀ kvs, body ≠ inr (VDict kvs)) →
  api_login st body w
  = (Json (VDict [("success", VBool false);
                  ("message",
                   VStr ("服务器错误: " ++
                         match body with
                         | inl e => e
                         | inr data =>
                             "'" ++ type_name data ++ "' object has no attribute 'get'"
                         end))]) 500,
     w).
Proof.
  intros Hno. destruct body as [e|data]; [reflexivity|].
  destruct data; try reflexivity.
  by destruct (Hno kvs).
Qed.

Lemma login_body_not_an_object_witness :
  api_login demo_store (inr (VList [VStr "alice"; VStr "secret"])) initial
  = (Json (VDict [("success", VBool false);
                  ("message",
                   VStr ("服务器错误: " ++
                         "'" ++ type_name (VList [VStr "alice"; VStr "secret"])
                         ++ "' object has no attribute 'get'"))]) 500,
     initial).
Proof.
  apply (login_body_not_an_object demo_store
           (inr (VList [VStr "alice"; VStr "secret"])) initial).
  intros kvs. discriminate.
Defined.

(** X7: of a JSON object the handler reads [data.get('username')] and
    [data.get('password')] and nothing else: two bodies that agree on
    these two values (other fields, their order, a key that is absent in
    one and null in the other) get the same answer and leave the same
    world. *)
Theorem login_reads_only_credentials st kvs kvs' w :
  dict_get (VDict kvs) "username" = dict_get (VDict kvs') "username" →
  dict_get (VDict kvs) "password" = dict_get (VDict kvs') "password" →
  post_login st kvs w = post_login st kvs' w.
Proof.
  simpl. intros [= Hu] [= Hp].
  unfold post_login, api_login, api_login_try, bind, lift, dict_get.
  cbv beta iota. by rewrite Hu, Hp.
Qed.

Lemma login_reads_only_credentials_witness :
  post_login demo_store (credentials "alice" "secret") initial
  = post_login demo_store verbose_form initial.
Proof.
  apply (login_reads_only_credentials demo_store
           (credentials "alice" "secret") verbose_form initial).
  - reflexivity.
  - reflexivity.
Defined.

(** ** All answers *)

(** X8: a JSON answer of the service has status 200, 401, 404 or 500;
    every answer with another status than 200 has the body
    {success: false, message: <string>}; 401 comes only from /api/login,
    404 only from an unmatched path, and 500 only from the two handlers
    that use the database. *)
Theorem json_answer_shape st req w body status :
  (handle st req w).1 = Json body status →
  (status = 200 ∨ status = 401 ∨ status = 404 ∨ status = 500)%Z ∧
  (status ≠ 200%Z →
   ∃ msg, body = VDict [("success", VBool false); ("message", VStr msg)]) ∧
  (status = 401%Z → ∃ b, req = PostApiLogin b) ∧
  (status = 404%Z → req = Unmatched) ∧
  (status = 500%Z → uses_database req = true).
Proof.
  destruct req as [| | |b| | | |]; simpl.
  - unfold index_page. destruct (is_logged_in w); discriminate.
  - discriminate.
  - unfold home. destruct (negb (is_logged_in w)); discriminate.
  - destruct (api_login_status st b w)
      as [(e & w' & _ & ->) | [-> | (name & ->)]]; simpl; intros [= <- <-].
    + split; [tauto|]. split; [intros _; by eexists|].
      split; [discriminate|]. split; [discriminate|done].
    + split; [tauto|]. split; [intros _; by eexists|].
      split; [intros _; by eexists|]. split; [discriminate|discriminate].
    + split; [tauto|]. split; [done|].
      split; [discriminate|]. split; discriminate.
  - unfold api_check. destruct (is_logged_in w); simpl; intros [= <- <-].
    + split; [tauto|]. split; [done|]. repeat split; discriminate.
    + split; [tauto|]. split; [done|]. repeat split; discriminate.
  - intros [= <- <-]. split; [tauto|]. split; [done|]. repeat split; discriminate.
  - rewrite test_database_response.
    destruct (first_fault st); intros [= <- <-].
    + split; [tauto|]. split; [intros _; by eexists|].
      split; [discriminate|]. split; [discriminate|done].
    + split; [tauto|]. split; [done|].
      split; [discriminate|]. split; discriminate.
  - intros [= <- <-]. split; [tauto|]. split; [intros _; by eexists|].
    split; [discriminate|]. split; [done|discriminate].
Qed.

Lemma json_answer_shape_witness :
  (401 = 200 ∨ 401 = 401 ∨ 401 = 404 ∨ 401 = 500)%Z ∧
  (401%Z ≠ 200%Z →
   ∃ msg, login_rejected_body
          = VDict [("success", VBool false); ("message", VStr msg)]) ∧
  (401%Z = 401%Z →
   ∃ b, PostApiLogin (inr (VDict (credentials "alice" "guess"))) = PostApiLogin b) ∧
  (401%Z = 404%Z →
   PostApiLogin (inr (VDict (credentials "alice" "guess"))) = Unmatched) ∧
  (401%Z = 500%Z →
   uses_database (PostApiLogin (inr (VDict (credentials "alice" "guess")))) = true).
Proof.
  apply (json_answer_shape demo_store
           (PostApiLogin (inr (VDict (credentials "alice" "guess")))) initial
           login_rejected_body 401).
  reflexivity.
Defined.

(** ** The sessions a client can have *)

Lemma login_overwrites (a b c d : pyval) :
  <["username" := a]> (<["user_id" := b]>
     (<["username" := c]> (<["user_id" := d]> (∅ : gmap string pyval))))
  = <["username" := a]> (<["user_id" := b]> ∅).
Proof.
  apply map_eq. intros k.
  destruct (decide (k = "username")) as [->|Hname];
    [by rewrite !lookup_insert_eq|].
  destruct (decide (k = "user_id")) as [->|Hid].
  - rewrite !(lookup_insert_ne _ "username" "user_id") by done.
    by rewrite !lookup_insert_eq.
  - by rewrite !lookup_insert_ne by done.
Qed.

Lemma reachable_shape w :
  reachable w →
  session w = ∅ ∨
  ∃ id name, session w = <["username" := VStr name]> (<["user_id" := VInt id]> ∅).
Proof.
  induction 1 as [|st req w Hw IH|w Hw IH].
  - by left.
  - destruct (handle_session st req w)
      as [Hs | [(body & r & _ & _ & Hs) | [_ Hs]]]; rewrite Hs.
    + done.
    + right. exists (u_id r), (u_username r).
      destruct IH as [-> | (id & name & ->)]; [done|].
      apply login_overwrites.
    + by left.
  - by left.
Qed.

(** X9: the session of a client is always empty or exactly
    {user_id: <integer>, username: <string>}: no handler stores any other
    key, and none leaves one of the two keys without the other. *)
Theorem reachable_session_shape w :
  reachable w →
  (session w = ∅ ∨
   ∃ id name,
     session w = <["username" := VStr name]> (<["user_id" := VInt id]> ∅)) ∧
  (∀ key, key ≠ "user_id" → key ≠ "username" → session w !! key = None).
Proof.
  intros Hw. split; [by apply reachable_shape|].
  intros key Hid Hname.
  destruct (reachable_shape w Hw) as [-> | (id & name & ->)].
  - apply lookup_empty.
  - rewrite !lookup_insert_ne by done. apply lookup_empty.
Qed.

Lemma reachable_session_shape_witness :
  (session (handle demo_store
              (PostApiLogin (inr (VDict (credentials "alice" "secret")))) initial).2
   = ∅ ∨
   ∃ id name,
     session (handle demo_store
                (PostApiLogin (inr (VDict (credentials "alice" "secret")))) initial).2
     = <["username" := VStr name]> (<["user_id" := VInt id]> ∅)) ∧
  (∀ key, key ≠ "user_id" → key ≠ "username" →
     session (handle demo_store
                (PostApiLogin (inr (VDict (credentials "alice" "secret")))) initial).2
     !! key = None).
Proof.
  apply (reachable_session_shape
           (handle demo_store
              (PostApiLogin (inr (VDict (credentials "alice" "secret")))) initial).2).
  apply reach_request. apply reach_initial.
Defined.

(** X10: for a logged-in client /home always shows the username stored at
    login: the default "访客" of [session.get('username', '访客')] is never
    what is rendered, and / redirects such a client to /home. *)
Theorem home_shows_username w :
  reachable w → is_logged_in w = true →
  ∃ name, session w !! "username" = Some (VStr name) ∧
          (home w).1 = Template "home.html" [("username", VStr name)] ∧
          (index_page w).1 = Redirect "/home".
Proof.
  intros Hw Hl. unfold home, index_page, session_get. rewrite Hl. simpl.
  apply is_logged_in_spec in Hl.
  destruct (reachable_typed w Hw) as [[Hn _] | (id & name & _ & Hname)].
  - rewrite Hn in Hl. by destruct Hl.
  - exists name. by rewrite Hname.
Qed.

Lemma home_shows_username_witness :
  ∃ name,
    session (handle demo_store
               (PostApiLogin (inr (VDict (credentials "alice" "secret")))) initial).2
    !! "username" = Some (VStr name) ∧
    (home (handle demo_store
             (PostApiLogin (inr (VDict (credentials "alice" "secret")))) initial).2).1
    = Template "home.html" [("username", VStr name)] ∧
    (index_page
       (handle demo_store
          (PostApiLogin (inr (VDict (credentials "alice" "secret")))) initial).2).1
    = Redirect "/home".
Proof.
  apply (home_shows_username
           (handle demo_store
              (PostApiLogin (inr (VDict (credentials "alice" "secret")))) initial).2).
  - apply reach_request. apply reach_initial.
  - reflexivity.
Defined.

(** X11: logging in while logged in replaces the identity entirely: after
    a successful login the session of a client is exactly the user_id and
    username of the record found, whoever was logged in before. *)
Theorem relogin_replaces_identity st kvs u p m w :
  reachable w → available st →
  items_get "username" kvs = Some (VStr u) →
  items_get "password" kvs = Some (VStr p) →
  List.find (has_credentials u p) (users st) = Some m →
  session (post_login st kvs w).2
  = <["username" := VStr (u_username m)]> (<["user_id" := VInt (u_id m)]> ∅).
Proof.
  intros Hw Hav Hu Hp Hfind.
  apply find_some_elem in Hfind as Hm. destruct Hm as [_ Hc].
  apply has_credentials_spec in Hc as [Hmu Hmp].
  assert (Htu : is_text u = true) by (rewrite <- Hmu; apply row_text).
  assert (Htp : is_text p = true) by (rewrite <- Hmp; apply row_text).
  rewrite (post_login_strings st kvs u p w Hav Hu Hp Htu Htp), Hfind. simpl.
  destruct (reachable_shape w Hw) as [-> | (id & name & ->)]; [done|].
  apply login_overwrites.
Qed.

Lemma relogin_replaces_identity_witness :
  session (post_login duplicate_store (credentials "alice" "secret")
             (handle demo_store
                (PostApiLogin (inr (VDict (credentials "alice" "secret"))))
                initial).2).2
  = <["username" := VStr (u_username alice)]> (<["user_id" := VInt (u_id alice)]> ∅).
Proof.
  apply (relogin_replaces_identity duplicate_store (credentials "alice" "secret")
           "alice" "secret" alice
           (handle demo_store
              (PostApiLogin (inr (VDict (credentials "alice" "secret")))) initial).2).
  - apply reach_request. apply reach_initial.
  - intros op. reflexivity.
  - reflexivity.
  - reflexivity.
  - reflexivity.
Defined.

(** ** The pages *)

(** X12: the three places that test the login state agree.  GET /
    redirects to /home exactly when the session holds user_id and renders
    login.html otherwise; when it redirects, /home renders home.html, and
    when /home redirects to /login, both /login and / render login.html:
    the redirects never form a loop.  None of the pages changes the
    world. *)
Theorem guards_agree w :
  ((index_page w).1 = Redirect "/home" ↔ is_Some (session w !! "user_id")) ∧
  ((index_page w).1 = Template "login.html" [] ↔ session w !! "user_id" = None) ∧
  ((index_page w).1 = Redirect (url_for ep_home) →
   ∃ context, (home (index_page w).2).1 = Template "home.html" context) ∧
  ((home w).1 = Redirect (url_for ep_login_page) →
   (login_page (home w).2).1 = Template "login.html" [] ∧
   (index_page (home w).2).1 = Template "login.html" []) ∧
  ((index_page w).1 = Redirect "/home" ↔
   (api_check w).1
   = Json (VDict [("logged_in", VBool true);
                  ("username", default VNone (session w !! "username"))]) 200) ∧
  (index_page w).2 = w ∧ (login_page w).2 = w ∧ (home w).2 = w.
Proof.
  unfold index_page, home, login_page, api_check, session_get.
  destruct (is_logged_in w) eqn:Hl; simpl; rewrite ?Hl; simpl.
  - apply is_logged_in_spec in Hl.
    split; [done|]. split.
    { split; [discriminate|]. intros Hn. rewrite Hn in Hl. by destruct Hl. }
    split; [intros _; by eexists|]. split; [discriminate|].
    split; [done|]. done.
  - apply is_logged_in_false in Hl.
    split.
    { split; [discriminate|]. intros Hs. rewrite Hl in Hs. by destruct Hs. }
    split; [done|]. split; [discriminate|]. split; [done|].
    split; [split; discriminate|]. done.
Qed.

(** ** Connections across requests *)

Lemma handle_connections st req w :
  (open_conns (handle st req w).2 = open_conns w ∧ uses_database req = false) ∨
  (open_conns (handle st req w).2 = open_conns w ∧ uses_database req = true) ∨
  open_conns (handle st req w).2 = open_conns (connected w) ∨
  open_conns (handle st req w).2 = open_conns (released w).
Proof.
  destruct req as [| | |body| | | |]; simpl.
  - left. unfold index_page. by destruct (is_logged_in w).
  - by left.
  - left. unfold home. by destruct (negb (is_logged_in w)).
  - unfold api_login.
    destruct (api_login_try_cases st body w)
      as [(e & w' & -> & _ & [-> | ->]) | [-> | (r & _ & ->)]]; simpl.
    + right; by left.
    + right; right; by left.
    + right; right; by right.
    + right; right; by right.
  - left. unfold api_check. by destruct (is_logged_in w).
  - by left.
  - unfold test_database.
    destruct (test_database_try_cases st w)
      as [(e & w' & -> & [[-> _] | [-> _]]) | [_ ->]]; simpl.
    + right; by left.
    + right; right; by left.
    + right; right; by right.
  - by left.
Qed.

(** X13: a request never closes a connection it did not open and opens at
    most one: after any request the open connections are those open
    before, possibly with the one new handle; the pages, /api/check,
    /api/logout and the 404 handler leave them untouched. *)
Theorem request_connections st req w :
  fresh w →
  open_conns w ⊆ open_conns (handle st req w).2 ∧
  open_conns (handle st req w).2 ⊆ {[next_conn w]} ∪ open_conns w ∧
  (uses_database req = false → open_conns (handle st req w).2 = open_conns w) ∧
  fresh (handle st req w).2.
Proof.
  intros Hf.
  pose proof (fresh_not_open w Hf) as Hn.
  split; [|split; [|split]].
  - destruct (handle_connections st req w) as [[-> _] | [[-> _] | [-> | ->]]].
    + done.
    + done.
    + simpl. apply union_subseteq_r.
    + simpl. by rewrite fresh_release.
  - destruct (handle_connections st req w) as [[-> _] | [[-> _] | [-> | ->]]].
    + apply union_subseteq_r.
    + apply union_subseteq_r.
    + done.
    + simpl. rewrite fresh_release by done. apply union_subseteq_r.
  - destruct req; simpl; try discriminate; intros _.
    + unfold index_page. by destruct (is_logged_in w).
    + done.
    + unfold home. by destruct (negb (is_logged_in w)).
    + unfold api_check. by destruct (is_logged_in w).
    + done.
    + done.
  - by apply handle_fresh.
Qed.

Lemma request_connections_witness :
  open_conns initial ⊆ open_conns (handle no_cursor_store GetApiTestDb initial).2 ∧
  open_conns (handle no_cursor_store GetApiTestDb initial).2
  ⊆ {[next_conn initial]} ∪ open_conns initial ∧
  (uses_database GetApiTestDb = false →
   open_conns (handle no_cursor_store GetApiTestDb initial).2 = open_conns initial) ∧
  fresh (handle no_cursor_store GetApiTestDb initial).2.
Proof.
  apply (request_connections no_cursor_store GetApiTestDb initial).
  intros c Hc. simpl in Hc. by apply not_elem_of_empty in Hc.
Defined.

(** ** Which failure is reported *)

(** X14: when the body is a JSON object whose credentials the driver
    accepts and some driver call raises, /api/login answers 500 with the
    text of the first call that raises, in the order connect, cursor,
    execute, fetchone, cursor.close, conn.close, whether or not a record
    matches: a failure while closing turns a found user into a 500 as
    well, with nothing written to the session. *)
Theorem login_reports_first_fault st kvs w e :
  accepted st (default VNone (items_get "username" kvs)) →
  accepted st (default VNone (items_get "password" kvs)) →
  first_fault st = Some e →
  (post_login st kvs w).1
  = Json (VDict [("success", VBool false);
                 ("message", VStr ("服务器错误: " ++ e))]) 500 ∧
  session (post_login st kvs w).2 = session w.
Proof.
  intros [qu Hu] [qp Hp].
  unfold first_fault, call_order. simpl omap.
  unfold post_login, api_login, api_login_try, get_db_connection, conn_cursor,
    execute, fetchone, cursor_close, conn_close, check, bind, lift, raise, ret,
    dict_get.
  rewrite Hu, Hp, (adapt_prints st _ qu Hu).
  destruct (fault st OpConnect); [by intros [= ->]|].
  destruct (fault st OpCursor); [by intros [= ->]|].
  destruct (fault st OpExecute); [by intros [= ->]|].
  destruct (fault st OpFetchone); [by intros [= ->]|].
  destruct (fault st OpCursorClose); [by intros [= ->]|].
  destruct (fault st OpClose); [by intros [= ->]|].
  discriminate.
Qed.

Lemma login_reports_first_fault_witness :
  (post_login no_cursor_store (credentials "alice" "secret") initial).1
  = Json (VDict [("success", VBool false);
                 ("message", VStr ("服务器错误: " ++ "cursor failed"))]) 500 ∧
  session (post_login no_cursor_store (credentials "alice" "secret") initial).2
  = session initial.
Proof.
  apply (login_reports_first_fault no_cursor_store
           (credentials "alice" "secret") initial "cursor failed").
  - exists (SqlText "alice"). reflexivity.
  - exists (SqlText "secret"). reflexivity.
  - reflexivity.
Defined.
